(** * Interrupt-driven UART driver (uart.c): shallow embedding and properties

    The module variables of uart.c (two channels, each with a transmit and a
    receive circular buffer and their head/tail indices) and the USART
    registers the driver touches are gathered in one machine state; every C
    function becomes a function from machine states to machine states, with
    its return value when it has one.

    [unsigned char] values are integers in [0, 256); the truncation that C
    performs when an [int] expression is stored in an [unsigned char] is
    written [u8]. *)

From Stdlib Require Import ZArith Bool Lia.
From stdpp Require Import base list.

Local Open Scope Z_scope.

(** ** Machine integers and arrays *)

Definition u8 (x : Z) : Z := x mod 256.

(** [_BV(bit)] of avr/sfr_defs.h. *)
Definition _BV (bit : Z) : Z := Z.shiftl 1 bit.

(** [a[i]] and [a[i] = v] on an array held as a list. *)
Definition load (a : list Z) (i : Z) : Z := a !!! Z.to_nat i.
Definition store (a : list Z) (i : Z) (v : Z) : list Z := <[Z.to_nat i := v]> a.

(** A store that reports a write outside the array (undefined in C). *)
Definition store_checked (a : list Z) (i : Z) (v : Z) : option (list Z) :=
  if (0 <=? i) && (i <? Z.of_nat (length a)) then Some (store a i v) else None.

(** [reg |= v] and [reg &= ~v] on an 8-bit register. *)
Definition reg_set (reg v : Z) : Z := u8 (Z.lor reg v).
Definition reg_clear (reg v : Z) : Z := u8 (Z.land reg (Z.lnot v)).

(** ** Register bits (avr/io.h, ATmega128: the device the driver was tested on)

    USART0 and USART1 have the same bit layout. *)

Definition GLOBAL_INTERRUPT_ENABLE : Z := 7.

(* UCSRnA *)
Definition FE : Z := 4.
Definition DOR : Z := 3.
Definition U2X : Z := 1.
(* UCSRnB *)
Definition RXCIE : Z := 7.
Definition UDRIE : Z := 5.
Definition RXEN : Z := 4.
Definition TXEN : Z := 3.
Definition UCSZ2 : Z := 2.
(* UCSRnC *)
Definition UPM1 : Z := 5.
Definition UPM0 : Z := 4.
Definition USBS : Z := 3.
Definition UCSZ1 : Z := 2.
Definition UCSZ0 : Z := 1.

(** ** Machine state *)

(** The module variables of one channel. *)
Record uart_vars := mk_vars {
  TxBuf : list Z;
  RxBuf : list Z;
  TxHead : Z;
  TxTail : Z;
  RxHead : Z;
  RxTail : Z;
  LastRxError : Z;
  received : Z
}.

(** The registers of one USART.  [UDR_rx] is what a read of the data register
    yields; [UDR_tx] lists the bytes written to the data register, oldest
    first. *)
Record usart_regs := mk_regs {
  STATUS : Z;
  CONTROL : Z;
  UCSRC : Z;
  UBRRH : Z;
  UBRRL : Z;
  UDR_rx : Z;
  UDR_tx : list Z
}.

Record machine := mk_machine {
  vars0 : uart_vars;
  vars1 : uart_vars;
  usart0 : usart_regs;
  usart1 : usart_regs;
  SREG : Z
}.

(** Field updates. *)
Definition set_TxBuf (v : list Z) (c : uart_vars) : uart_vars :=
  mk_vars v (RxBuf c) (TxHead c) (TxTail c) (RxHead c) (RxTail c) (LastRxError c) (received c).
Definition set_RxBuf (v : list Z) (c : uart_vars) : uart_vars :=
  mk_vars (TxBuf c) v (TxHead c) (TxTail c) (RxHead c) (RxTail c) (LastRxError c) (received c).
Definition set_TxHead (v : Z) (c : uart_vars) : uart_vars :=
  mk_vars (TxBuf c) (RxBuf c) v (TxTail c) (RxHead c) (RxTail c) (LastRxError c) (received c).
Definition set_TxTail (v : Z) (c : uart_vars) : uart_vars :=
  mk_vars (TxBuf c) (RxBuf c) (TxHead c) v (RxHead c) (RxTail c) (LastRxError c) (received c).
Definition set_RxHead (v : Z) (c : uart_vars) : uart_vars :=
  mk_vars (TxBuf c) (RxBuf c) (TxHead c) (TxTail c) v (RxTail c) (LastRxError c) (received c).
Definition set_RxTail (v : Z) (c : uart_vars) : uart_vars :=
  mk_vars (TxBuf c) (RxBuf c) (TxHead c) (TxTail c) (RxHead c) v (LastRxError c) (received c).
Definition set_LastRxError (v : Z) (c : uart_vars) : uart_vars :=
  mk_vars (TxBuf c) (RxBuf c) (TxHead c) (TxTail c) (RxHead c) (RxTail c) v (received c).
Definition set_received (v : Z) (c : uart_vars) : uart_vars :=
  mk_vars (TxBuf c) (RxBuf c) (TxHead c) (TxTail c) (RxHead c) (RxTail c) (LastRxError c) v.

Definition set_STATUS (v : Z) (r : usart_regs) : usart_regs :=
  mk_regs v (CONTROL r) (UCSRC r) (UBRRH r) (UBRRL r) (UDR_rx r) (UDR_tx r).
Definition set_CONTROL (v : Z) (r : usart_regs) : usart_regs :=
  mk_regs (STATUS r) v (UCSRC r) (UBRRH r) (UBRRL r) (UDR_rx r) (UDR_tx r).
Definition set_UCSRC (v : Z) (r : usart_regs) : usart_regs :=
  mk_regs (STATUS r) (CONTROL r) v (UBRRH r) (UBRRL r) (UDR_rx r) (UDR_tx r).
Definition set_UBRRH (v : Z) (r : usart_regs) : usart_regs :=
  mk_regs (STATUS r) (CONTROL r) (UCSRC r) v (UBRRL r) (UDR_rx r) (UDR_tx r).
Definition set_UBRRL (v : Z) (r : usart_regs) : usart_regs :=
  mk_regs (STATUS r) (CONTROL r) (UCSRC r) (UBRRH r) v (UDR_rx r) (UDR_tx r).
Definition write_UDR (v : Z) (r : usart_regs) : usart_regs :=
  mk_regs (STATUS r) (CONTROL r) (UCSRC r) (UBRRH r) (UBRRL r) (UDR_rx r) (UDR_tx r ++ [v]).

Definition on_vars0 (f : uart_vars -> uart_vars) (m : machine) : machine :=
  mk_machine (f (vars0 m)) (vars1 m) (usart0 m) (usart1 m) (SREG m).
Definition on_vars1 (f : uart_vars -> uart_vars) (m : machine) : machine :=
  mk_machine (vars0 m) (f (vars1 m)) (usart0 m) (usart1 m) (SREG m).
Definition on_usart0 (f : usart_regs -> usart_regs) (m : machine) : machine :=
  mk_machine (vars0 m) (vars1 m) (f (usart0 m)) (usart1 m) (SREG m).
Definition on_usart1 (f : usart_regs -> usart_regs) (m : machine) : machine :=
  mk_machine (vars0 m) (vars1 m) (usart0 m) (f (usart1 m)) (SREG m).
Definition set_SREG (v : Z) (m : machine) : machine :=
  mk_machine (vars0 m) (vars1 m) (usart0 m) (usart1 m) v.

(** The module variables under the names uart.c gives them. *)
Definition UART_TxBuf (m : machine) := TxBuf (vars0 m).
Definition UART_RxBuf (m : machine) := RxBuf (vars0 m).
Definition UART_TxHead (m : machine) := TxHead (vars0 m).
Definition UART_TxTail (m : machine) := TxTail (vars0 m).
Definition UART_RxHead (m : machine) := RxHead (vars0 m).
Definition UART_RxTail (m : machine) := RxTail (vars0 m).
Definition UART_LastRxError (m : machine) := LastRxError (vars0 m).
Definition uart0_received (m : machine) := received (vars0 m).
Definition UART1_TxBuf (m : machine) := TxBuf (vars1 m).
Definition UART1_RxBuf (m : machine) := RxBuf (vars1 m).
Definition UART1_TxHead (m : machine) := TxHead (vars1 m).
Definition UART1_TxTail (m : machine) := TxTail (vars1 m).
Definition UART1_RxHead (m : machine) := RxHead (vars1 m).
Definition UART1_RxTail (m : machine) := RxTail (vars1 m).
Definition UART1_LastRxError (m : machine) := LastRxError (vars1 m).
Definition uart1_received (m : machine) := received (vars1 m).
Definition UART0_STATUS (m : machine) := STATUS (usart0 m).
Definition UART0_CONTROL (m : machine) := CONTROL (usart0 m).
Definition UART0_DATA (m : machine) := UDR_rx (usart0 m).
Definition UART1_STATUS (m : machine) := STATUS (usart1 m).
Definition UART1_CONTROL (m : machine) := CONTROL (usart1 m).
Definition UART1_DATA (m : machine) := UDR_rx (usart1 m).

(** The accumulator part of [struct UART] / [struct UART1], and the line
    configuration the constructor records in it.  The capacity of [msg] is
    the length of the list; [index] is an integer without wrap-around. *)
Record UART := mk_UART {
  index : Z;
  msg : list Z;
  ubrr : Z;
  FDbits : Z;
  Stopbits : Z;
  Parity : Z
}.

(** What [uart1_read] returns: the literal ["empty"] or [uart->msg]. *)
Inductive read_result := ret_empty | ret_msg (s : list Z).

(** The buffer sizes must be powers of two (the [#error] checks of uart.c);
    the indices are [unsigned char], so a size is at most 256. *)
Definition is_pow2 (n : Z) : bool :=
  existsb (Z.eqb n) (map (Z.pow 2) [0; 1; 2; 3; 4; 5; 6; 7; 8]).

(** ** Sample states *)

(** USART registers after reset, as far as the driver is concerned. *)
Definition regs_reset : usart_regs := mk_regs 0 0 0 0 0 0 [].

(** Channel variables with the given buffers and indices. *)
Definition vars_of (tx rx : list Z) (txh txt rxh rxt : Z) : uart_vars :=
  mk_vars tx rx txh txt rxh rxt 0 0.

(** An eight-slot channel 0 whose two buffers hold the seven bytes of
    ["Hello!\n"], oldest at index 0: both are full. *)
Definition hello : list Z := [72; 101; 108; 108; 111; 33; 10; 0].
Definition m_full : machine :=
  mk_machine (vars_of hello hello 7 0 7 0) (vars_of hello hello 0 0 0 0)
             regs_reset regs_reset 128.


(** Three bytes queued in the receive buffer of each channel. *)
Definition m_rx3 : machine :=
  mk_machine (vars_of hello hello 0 0 3 0) (vars_of hello hello 0 0 3 0)
             regs_reset regs_reset 128.

(** Receive indices that have wrapped: [head] is below [tail], six bytes are
    queued on each channel (slots 5, 6, 7, 0, 1, 2). *)
Definition m_wrapped : machine :=
  mk_machine (vars_of hello hello 0 0 3 5) (vars_of hello hello 0 0 3 5)
             regs_reset regs_reset 128.

(** Module variables as the C start-up code leaves them (all zero), with
    buffers of [tx] and [rx] slots. *)
Definition vars_zero (tx rx : nat) : uart_vars :=
  mk_vars (repeat 0 tx) (repeat 0 rx) 0 0 0 0 0 0.

(** The machine after reset, global interrupts disabled. *)
Definition m_reset (tx rx : nat) : machine :=
  mk_machine (vars_zero tx rx) (vars_zero tx rx) regs_reset regs_reset 0.

(** A byte arrives on a USART: the hardware sets the status flags and the
    receive data register. *)
Definition receive (status data : Z) (r : usart_regs) : usart_regs :=
  mk_regs status (CONTROL r) (UCSRC r) (UBRRH r) (UBRRL r) data (UDR_tx r).

(** Both channels empty; a byte with a framing error is pending on each
    USART. *)
Definition m_frame_error : machine :=
  mk_machine (vars_of hello hello 0 0 0 0) (vars_of hello hello 0 0 0 0)
             (receive (_BV FE) 65 regs_reset) (receive (_BV FE) 65 regs_reset) 128.

(** The transmit buffer of channel 0 holds a null byte followed by ['A'] and
    ['B'] (head = 3, tail = 0); the transmit-ready interrupt is enabled. *)
Definition m_null_first : machine :=
  mk_machine (vars_of [0; 65; 66; 0; 0; 0; 0; 0] [0; 65; 66; 0; 0; 0; 0; 0] 3 0 3 0)
             (vars_of hello hello 0 0 0 0)
             (set_CONTROL (Z.lor (_BV RXCIE) (Z.lor (_BV RXEN) (Z.lor (_BV TXEN) (_BV UDRIE))))
                regs_reset)
             regs_reset 128.

(** ** Derived quantities *)

(** The number of bytes a circular buffer holds. *)
Definition queued (size head tail : Z) : Z := (head - tail) mod size.

(** [SREG] when a constructor returns: the saved value with bit 7 set. *)
Definition SREG_on_exit (sreg : Z) : Z :=
  reg_set sreg (Z.shiftl 1 GLOBAL_INTERRUPT_ENABLE).

(** ** Well-formed buffers *)

(** A circular buffer is well formed when its storage has [size] slots and
    both indices lie in [0, size). *)
Definition ring_wf (size : Z) (buf : list Z) (head tail : Z) : Prop :=
  Z.of_nat (length buf) = size /\ 0 <= head < size /\ 0 <= tail < size.

(** ** Buffers as queues *)

(** The slots [t], [t + 1], ... (modulo [size]) of [buf] hold the bytes of
    [q], in this order. *)
Fixpoint holds (size : Z) (buf : list Z) (t : Z) (q : list Z) : Prop :=
  match q with
  | [] => True
  | b :: q' => load buf t = b /\ holds size buf ((t + 1) mod size) q'
  end.

(** Channel 0 keeps the queued bytes in the slots from [tail] on: [head] is
    the first free slot. *)
Definition ring_queue (size : Z) (buf : list Z) (head tail : Z) (q : list Z) : Prop :=
  ring_wf size buf head tail /\
  Z.of_nat (length q) < size /\
  head = (tail + Z.of_nat (length q)) mod size /\
  holds size buf tail q.

(** Channel 1 advances an index before it uses it: the queued bytes are in
    the slots after [tail], and [head] is the slot written last. *)
Definition ring_queue1 (size : Z) (buf : list Z) (head tail : Z) (q : list Z) : Prop :=
  ring_wf size buf head tail /\
  Z.of_nat (length q) < size /\
  head = (tail + Z.of_nat (length q)) mod size /\
  holds size buf ((tail + 1) mod size) q.

(** The byte the receive handler of channel 0 queues for a byte [b] that
    arrived with the status flags [status]: ['X'] on a framing or overrun
    error. *)
Definition rx_byte (status b : Z) : Z :=
  if Z.land status (Z.lor (_BV FE) (_BV DOR)) =? 0 then b else 88.

(** ** Frame format *)

(** The frame a constructor records for the arguments it gets. *)
Definition norm_FDbits (fd : Z) : Z := if (5 <=? fd) && (fd <=? 9) then fd else 8.
Definition norm_Stopbits (sb : Z) : Z := if sb =? 2 then 2 else 1.
Definition norm_Parity (par : Z) : Z := if (par =? 2) || (par =? 3) then par else 0.

(** What the three [switch] statements do to the value [x] of UCSRnC. *)
Definition UCSRC_size (fd x : Z) : Z :=
  if fd =? 7 then reg_clear (reg_set x (Z.shiftl 1 UCSZ1)) (Z.shiftl 1 UCSZ0)
  else if fd =? 6 then reg_set (reg_clear x (Z.shiftl 1 UCSZ1)) (Z.shiftl 1 UCSZ0)
  else if fd =? 5 then reg_clear x (Z.shiftl 3 UCSZ0)
  else reg_set x (Z.shiftl 3 UCSZ0).
Definition UCSRC_stop (sb x : Z) : Z :=
  if sb =? 2 then reg_set x (Z.shiftl 1 USBS) else reg_clear x (Z.shiftl 1 USBS).
Definition UCSRC_parity (par x : Z) : Z :=
  if par =? 2 then reg_clear (reg_set x (Z.shiftl 1 UPM1)) (Z.shiftl 1 UPM0)
  else if par =? 3 then reg_set x (Z.shiftl 3 UPM0)
  else reg_clear x (Z.shiftl 3 UPM0).

(** ** Keypad line buffer (mm74c923.c) *)

Definition MM74C923_STR_SIZE : Z := 5.

(** [mm74c923_i] and [MM74C923_string], an array of [MM74C923_STR_SIZE]
    characters. *)
Record keypad := mk_keypad {
  mm74c923_i : Z;
  MM74C923_string : list Z
}.

(** [MM74C923_gets], given the character [c] that its call of
    [MM74C923_getch_oneshot] returned; [None] when a write falls outside
    [MM74C923_string]. *)
Definition MM74C923_gets (c : Z) (k : keypad) : option keypad :=
  if c =? 42 then Some (mk_keypad 0 (MM74C923_string k))
  else if negb (c =? 0) then
    let i := if mm74c923_i k =? MM74C923_STR_SIZE then 0 else mm74c923_i k in
    match store_checked (MM74C923_string k) i c with
    | None => None
    | Some s1 =>
        let i := u8 (i + 1) in
        match store_checked s1 i 0 with
        | None => None
        | Some s2 => Some (mk_keypad i s2)
        end
    end
  else Some k.

(** Successive calls, one per character. *)
Fixpoint MM74C923_gets_all (cs : list Z) (k : keypad) : option keypad :=
  match cs with
  | [] => Some k
  | c :: cs' =>
      match MM74C923_gets c k with
      | None => None
      | Some k' => MM74C923_gets_all cs' k'
      end
  end.

(** A character that [MM74C923_gets] appends. *)
Definition is_key (c : Z) : Prop := c <> 0 /\ c <> 42.

(** A fresh accumulator with an eight-slot [msg]. *)
Definition uart_fresh : UART := mk_UART 0 (repeat 0 8) 103 8 1 0.

(** The keypad line buffer at start-up. *)
Definition keypad_reset : keypad := mk_keypad 0 (repeat 0 5).


Section Driver.

(** Constants declared in uart.h. *)
Variable UART_RX_BUFFER_SIZE : Z.
Variable UART_TX_BUFFER_SIZE : Z.
Variable UART_NO_DATA : Z.
Variable UART_BUFFER_OVERFLOW : Z.

Definition UART_RX_BUFFER_MASK : Z := UART_RX_BUFFER_SIZE - 1.
Definition UART_TX_BUFFER_MASK : Z := UART_TX_BUFFER_SIZE - 1.

(** ** Circular-buffer primitives of channel 0 *)

Definition uart0_txpush (data : Z) (m : machine) : Z * machine :=
  let push := u8 (Z.land (UART_TxHead m + 1) UART_TX_BUFFER_MASK) in
  if negb (UART_TxTail m =? push) then
    let m := on_vars0 (set_TxBuf (store (UART_TxBuf m) (UART_TxHead m) data)) m in
    let m := on_vars0 (set_TxHead push) m in
    (1, m)
  else
    let m := on_vars0 (set_TxBuf (store (UART_TxBuf m) push 0)) m in
    (0, m).

Definition uart0_txpop (m : machine) : Z * machine :=
  let pop := u8 (Z.land (UART_TxTail m + 1) UART_TX_BUFFER_MASK) in
  if negb (UART_TxTail m =? UART_TxHead m) then
    let data := load (UART_TxBuf m) (UART_TxTail m) in
    let m := on_vars0 (set_TxTail pop) m in
    (data, m)
  else
    (0, m).

Definition uart0_rxpush (data : Z) (m : machine) : Z * machine :=
  let push := u8 (Z.land (UART_RxHead m + 1) UART_RX_BUFFER_MASK) in
  if negb (UART_RxTail m =? push) then
    let m := on_vars0 (set_RxBuf (store (UART_RxBuf m) (UART_RxHead m) data)) m in
    let m := on_vars0 (set_RxHead push) m in
    (1, m)
  else
    let m := on_vars0 (set_RxBuf (store (UART_RxBuf m) push 0)) m in
    (0, m).

Definition uart0_rxpop (m : machine) : Z * machine :=
  let pop := u8 (Z.land (UART_RxTail m + 1) UART_RX_BUFFER_MASK) in
  if negb (UART_RxTail m =? UART_RxHead m) then
    let data := load (UART_RxBuf m) (UART_RxTail m) in
    let m := on_vars0 (set_RxTail pop) m in
    (data, m)
  else
    (0, m).

(** ** Channel 0: foreground functions *)

(** [unsigned int] is 16 bits wide on AVR. *)
Definition u16 (x : Z) : Z := x mod 65536.

Definition uart_getc (m : machine) : Z * machine :=
  let tmptail := u8 (Z.land (UART_RxTail m + 1) UART_RX_BUFFER_MASK) in
  if negb (tmptail =? UART_RxHead m) then
    let data := load (UART_RxBuf m) (UART_RxTail m) in
    let m := on_vars0 (set_RxTail tmptail) m in
    (u16 (Z.shiftl (UART_LastRxError m) 8 + data), m)
  else
    (UART_NO_DATA, m).

Definition uart_putc (data : Z) (m : machine) : machine :=
  let '(r, m) := uart0_txpush data m in
  if negb (r =? 0) then
    on_usart0 (fun u => set_CONTROL (reg_set (CONTROL u) (_BV UDRIE)) u) m
  else m.

(** [s] is the string without its terminating null. *)
Fixpoint uart_puts (s : list Z) (m : machine) : machine :=
  match s with
  | [] => m
  | c :: s' => uart_puts s' (uart_putc c m)
  end.

(** The operands are promoted to [int]; [%] is C's remainder.  [None] stands
    for the division by zero of a one-slot buffer. *)
Definition uart_available (m : machine) : option Z :=
  if UART_RX_BUFFER_MASK =? 0 then None
  else Some (Z.rem (UART_RX_BUFFER_MASK + UART_RxHead m - UART_RxTail m) UART_RX_BUFFER_MASK).

Definition uart_flush (m : machine) : machine :=
  on_vars0 (set_RxHead (UART_RxTail m)) m.

(** [uart_read] returns [uart->msg]; the result is the updated accumulator,
    or [None] when a write falls outside [msg]. *)
Definition uart_read (uart : UART) (m : machine) : option (UART * machine) :=
  let '(data, m) := uart0_rxpop m in
  if negb (data =? 0) then
    match store_checked (msg uart) (index uart) data with
    | None => None
    | Some msg1 =>
        let idx := index uart + 1 in
        match store_checked msg1 idx 0 with
        | None => None
        | Some msg2 =>
            Some (mk_UART idx msg2 (ubrr uart) (FDbits uart) (Stopbits uart) (Parity uart), m)
        end
    end
  else
    Some (mk_UART 0 (msg uart) (ubrr uart) (FDbits uart) (Stopbits uart) (Parity uart), m).

Definition uart_rxtail (m : machine) : Z := UART_RxTail m.
Definition uart_rxhead (m : machine) : Z := UART_RxHead m.
Definition uart_txtail (m : machine) : Z := UART_TxTail m.
Definition uart_txhead (m : machine) : Z := UART_TxHead m.

(** ** Channel 1: foreground functions *)

Definition uart1_getc (m : machine) : Z * machine :=
  if UART1_RxHead m =? UART1_RxTail m then (UART_NO_DATA, m)
  else
    let tmptail := u8 (Z.land (UART1_RxTail m + 1) UART_RX_BUFFER_MASK) in
    let m := on_vars1 (set_RxTail tmptail) m in
    let data := load (UART1_RxBuf m) tmptail in
    (u16 (Z.shiftl (UART1_LastRxError m) 8 + data), m).

(** The wait loop of [uart1_putc] only ends when an interrupt moves
    [UART1_TxTail]; [None] stands for a call that would spin. *)
Definition uart1_putc (data : Z) (m : machine) : option machine :=
  let tmphead := u8 (Z.land (UART1_TxHead m + 1) UART_TX_BUFFER_MASK) in
  if tmphead =? UART1_TxTail m then None
  else
    let m := on_vars1 (set_TxBuf (store (UART1_TxBuf m) tmphead data)) m in
    let m := on_vars1 (set_TxHead tmphead) m in
    Some (on_usart1 (fun u => set_CONTROL (reg_set (CONTROL u) (_BV UDRIE)) u) m).

Definition uart1_available (m : machine) : option Z :=
  if UART_RX_BUFFER_MASK =? 0 then None
  else Some (Z.rem (UART_RX_BUFFER_MASK + UART1_RxHead m - UART1_RxTail m) UART_RX_BUFFER_MASK).

Definition uart1_flush (m : machine) : machine :=
  on_vars1 (set_RxHead (UART1_RxTail m)) m.

Definition uart1_read (uart : UART) (m : machine) : option (read_result * UART * machine) :=
  let tmptail := u8 (Z.land (UART1_RxTail m + 1) UART_RX_BUFFER_MASK) in
  if negb (UART1_RxTail m =? UART1_RxHead m) && (index uart <? UART_RX_BUFFER_MASK) then
    let m := on_vars1 (set_RxTail tmptail) m in
    let data := load (UART1_RxBuf m) tmptail in
    match store_checked (msg uart) (index uart) data with
    | None => None
    | Some msg1 =>
        let idx := index uart + 1 in
        match store_checked msg1 idx 0 with
        | None => None
        | Some msg2 =>
            Some (ret_empty,
                  mk_UART idx msg2 (ubrr uart) (FDbits uart) (Stopbits uart) (Parity uart), m)
        end
    end
  else
    Some (ret_msg (msg uart),
          mk_UART 0 (msg uart) (ubrr uart) (FDbits uart) (Stopbits uart) (Parity uart), m).

Definition uart1_tail (m : machine) : Z := UART1_RxTail m.
Definition uart1_head (m : machine) : Z := UART1_RxHead m.

(** ** Interrupt handlers *)

Definition ISR_UART0_RECEIVE (m : machine) : machine :=
  let usr := UART0_STATUS m in
  let lastRxError := Z.land usr (Z.lor (_BV FE) (_BV DOR)) in
  if negb (lastRxError =? 0) then snd (uart0_rxpush 88 m)
  else snd (uart0_rxpush (UART0_DATA m) m).

Definition ISR_UART0_TRANSMIT (m : machine) : machine :=
  let '(data, m) := uart0_txpop m in
  if negb (data =? 0) then on_usart0 (write_UDR data) m
  else on_usart0 (fun u => set_CONTROL (reg_clear (CONTROL u) (_BV UDRIE)) u) m.

Definition SIGNAL_UART1_RECEIVE (m : machine) : machine :=
  let usr := UART1_STATUS m in
  let data := UART1_DATA m in
  let lastRxError := Z.land usr (Z.lor (_BV FE) (_BV DOR)) in
  let tmphead := u8 (Z.land (UART1_RxHead m + 1) UART_RX_BUFFER_MASK) in
  let '(lastRxError, m) :=
    if tmphead =? UART1_RxTail m then
      (u8 (Z.shiftr UART_BUFFER_OVERFLOW 8), m)
    else
      let m := on_vars1 (set_RxHead tmphead) m in
      if negb (lastRxError =? 0) then
        (lastRxError, on_vars0 (set_RxBuf (store (UART_RxBuf m) tmphead 88)) m)
      else
        (lastRxError, on_vars0 (set_RxBuf (store (UART_RxBuf m) tmphead data)) m) in
  on_vars1 (set_LastRxError lastRxError) m.

Definition SIGNAL_UART1_TRANSMIT (m : machine) : machine :=
  if negb (UART1_TxHead m =? UART1_TxTail m) then
    let tmptail := u8 (Z.land (UART1_TxTail m + 1) UART_TX_BUFFER_MASK) in
    let m := on_vars1 (set_TxTail tmptail) m in
    on_usart1 (write_UDR (load (UART1_TxBuf m) tmptail)) m
  else
    on_usart1 (fun u => set_CONTROL (reg_clear (CONTROL u) (_BV UDRIE)) u) m.

(** ** Constructors

    The [ATMEGA_USART0] branch without [URSEL0], which is the one compiled
    for the ATmega128; channel 1 has the same code on the USART1 registers. *)

(** The three [switch] statements that select the frame format; the result
    holds the updated registers and the [FDbits], [Stopbits] and [Parity]
    recorded in the object. *)
Definition frame_format (FDbits Stopbits Parity : Z) (r : usart_regs)
  : usart_regs * (Z * Z * Z) :=
  let '(r, fd) :=
    if FDbits =? 9 then
      let r := set_CONTROL (reg_set (CONTROL r) (Z.shiftl 1 UCSZ2)) r in
      (set_UCSRC (reg_set (UCSRC r) (Z.shiftl 3 UCSZ0)) r, 9)
    else if FDbits =? 8 then
      let r := set_CONTROL (reg_clear (CONTROL r) (Z.shiftl 1 UCSZ2)) r in
      (set_UCSRC (reg_set (UCSRC r) (Z.shiftl 3 UCSZ0)) r, 8)
    else if FDbits =? 7 then
      let r := set_CONTROL (reg_clear (CONTROL r) (Z.shiftl 1 UCSZ2)) r in
      let r := set_UCSRC (reg_set (UCSRC r) (Z.shiftl 1 UCSZ1)) r in
      (set_UCSRC (reg_clear (UCSRC r) (Z.shiftl 1 UCSZ0)) r, 7)
    else if FDbits =? 6 then
      let r := set_CONTROL (reg_clear (CONTROL r) (Z.shiftl 1 UCSZ2)) r in
      let r := set_UCSRC (reg_clear (UCSRC r) (Z.shiftl 1 UCSZ1)) r in
      (set_UCSRC (reg_set (UCSRC r) (Z.shiftl 1 UCSZ0)) r, 6)
    else if FDbits =? 5 then
      let r := set_CONTROL (reg_clear (CONTROL r) (Z.shiftl 1 UCSZ2)) r in
      (set_UCSRC (reg_clear (UCSRC r) (Z.shiftl 3 UCSZ0)) r, 5)
    else
      let r := set_CONTROL (reg_clear (CONTROL r) (Z.shiftl 1 UCSZ2)) r in
      (set_UCSRC (reg_set (UCSRC r) (Z.shiftl 3 UCSZ0)) r, 8) in
  let '(r, sb) :=
    if Stopbits =? 1 then (set_UCSRC (reg_clear (UCSRC r) (Z.shiftl 1 USBS)) r, 1)
    else if Stopbits =? 2 then (set_UCSRC (reg_set (UCSRC r) (Z.shiftl 1 USBS)) r, 2)
    else (set_UCSRC (reg_clear (UCSRC r) (Z.shiftl 1 USBS)) r, 1) in
  let '(r, par) :=
    if Parity =? 0 then (set_UCSRC (reg_clear (UCSRC r) (Z.shiftl 3 UPM0)) r, 0)
    else if Parity =? 2 then
      let r := set_UCSRC (reg_set (UCSRC r) (Z.shiftl 1 UPM1)) r in
      (set_UCSRC (reg_clear (UCSRC r) (Z.shiftl 1 UPM0)) r, 2)
    else if Parity =? 3 then (set_UCSRC (reg_set (UCSRC r) (Z.shiftl 3 UPM0)) r, 3)
    else (set_UCSRC (reg_clear (UCSRC r) (Z.shiftl 3 UPM0)) r, 0) in
  (r, (fd, sb, par)).

(** Baud-rate and enable writes shared by both constructors. *)
Definition usart_setup (baudrate FDbits Stopbits Parity : Z) (r : usart_regs)
  : usart_regs * (Z * Z * Z) :=
  let '(baudrate, r) :=
    if negb (Z.land baudrate 32768 =? 0) then
      (u16 (Z.land baudrate (Z.lnot 32768)), set_STATUS (Z.shiftl 1 U2X) r)
    else (baudrate, r) in
  let r := set_UBRRH (u8 (Z.shiftr baudrate 8)) r in
  let r := set_UBRRL (u8 baudrate) r in
  let r := set_CONTROL (Z.lor (_BV RXCIE) (Z.lor (Z.shiftl 1 RXEN) (Z.shiftl 1 TXEN))) r in
  frame_format FDbits Stopbits Parity r.

(** [msg0] is the indeterminate content of the automatic [uart.msg]. *)
Definition UARTenable (baudrate FDbits Stopbits Parity : Z) (msg0 : list Z) (m : machine)
  : UART * machine :=
  let tSREG := SREG m in
  let m := set_SREG (reg_clear (SREG m) (Z.shiftl 1 GLOBAL_INTERRUPT_ENABLE)) m in
  let m := on_vars0 (set_TxHead 0) m in
  let m := on_vars0 (set_TxTail 0) m in
  let m := on_vars0 (set_RxHead 0) m in
  let m := on_vars0 (set_RxTail 0) m in
  let m := on_vars0 (set_received 0) m in
  let '(r, (fd, sb, par)) := usart_setup baudrate FDbits Stopbits Parity (usart0 m) in
  let m := on_usart0 (fun _ => r) m in
  let m := set_SREG tSREG m in
  let m := set_SREG (reg_set (SREG m) (Z.shiftl 1 GLOBAL_INTERRUPT_ENABLE)) m in
  (mk_UART 0 (store msg0 0 0) baudrate fd sb par, m).

Definition UART1enable (baudrate FDbits Stopbits Parity : Z) (msg0 : list Z) (m : machine)
  : UART * machine :=
  let tSREG := SREG m in
  let m := set_SREG (reg_clear (SREG m) (Z.shiftl 1 GLOBAL_INTERRUPT_ENABLE)) m in
  let m := on_vars1 (set_TxHead 0) m in
  let m := on_vars1 (set_TxTail 0) m in
  let m := on_vars1 (set_RxHead 0) m in
  let m := on_vars1 (set_RxTail 0) m in
  let m := on_vars1 (set_received 0) m in
  let '(r, (fd, sb, par)) := usart_setup baudrate FDbits Stopbits Parity (usart1 m) in
  let m := on_usart1 (fun _ => r) m in
  let m := set_SREG tSREG m in
  let m := set_SREG (reg_set (SREG m) (Z.shiftl 1 GLOBAL_INTERRUPT_ENABLE)) m in
  (mk_UART 0 (store msg0 0 0) baudrate fd sb par, m).

(** ** Scenarios *)

(** Open channel 0, then write ['H'] and ['i']. *)
Definition write_Hi (baudrate fd sb par : Z) (msg0 : list Z) (m : machine) : machine :=
  uart_putc 105 (uart_putc 72 (snd (UARTenable baudrate fd sb par msg0 m))).

(** A byte without receive error arrives on channel 0, the handler runs, and
    the foreground then calls [uart_read]. *)
Definition receive_and_read (b : Z) (st : UART * machine) : option (UART * machine) :=
  uart_read (fst st) (ISR_UART0_RECEIVE (on_usart0 (receive 0 b) (snd st))).

Fixpoint receive_and_read_all (bs : list Z) (st : UART * machine)
  : option (UART * machine) :=
  match bs with
  | [] => Some st
  | b :: bs' =>
      match receive_and_read b st with
      | None => None
      | Some st' => receive_and_read_all bs' st'
      end
  end.

(** ** Remaining string functions and repeated calls *)

(** [uart_puts_p] reads its string from program memory; the loop is that of
    [uart_puts]. *)
Fixpoint uart_puts_p (progmem_s : list Z) (m : machine) : machine :=
  match progmem_s with
  | [] => m
  | c :: s' => uart_puts_p s' (uart_putc c m)
  end.

(** [uart1_puts] and [uart1_puts_p]: [None] when a [uart1_putc] would spin. *)
Fixpoint uart1_puts (s : list Z) (m : machine) : option machine :=
  match s with
  | [] => Some m
  | c :: s' =>
      match uart1_putc c m with
      | None => None
      | Some m' => uart1_puts s' m'
      end
  end.

Fixpoint uart1_puts_p (progmem_s : list Z) (m : machine) : option machine :=
  match progmem_s with
  | [] => Some m
  | c :: s' =>
      match uart1_putc c m with
      | None => None
      | Some m' => uart1_puts_p s' m'
      end
  end.

(** An interrupt handler fires [n] times in a row. *)
Fixpoint fire (isr : machine -> machine) (n : nat) (m : machine) : machine :=
  match n with
  | O => m
  | S n' => fire isr n' (isr m)
  end.

(** The bytes of [bs] arrive one after the other on USART0, each with the
    status flags [status], and the receive handler runs for each. *)
Fixpoint deliver (status : Z) (bs : list Z) (m : machine) : machine :=
  match bs with
  | [] => m
  | b :: bs' => deliver status bs' (ISR_UART0_RECEIVE (on_usart0 (receive status b) m))
  end.

(** [n] calls of [uart0_rxpop]; the bytes returned, first call first. *)
Fixpoint uart0_rxpop_n (n : nat) (m : machine) : list Z * machine :=
  match n with
  | O => ([], m)
  | S n' =>
      let '(b, m1) := uart0_rxpop m in
      let '(bs, m2) := uart0_rxpop_n n' m1 in
      (b :: bs, m2)
  end.

(** The four circular buffers are well formed. *)
Definition machine_wf (m : machine) : Prop :=
  ring_wf UART_TX_BUFFER_SIZE (UART_TxBuf m) (UART_TxHead m) (UART_TxTail m) /\
  ring_wf UART_RX_BUFFER_SIZE (UART_RxBuf m) (UART_RxHead m) (UART_RxTail m) /\
  ring_wf UART_TX_BUFFER_SIZE (UART1_TxBuf m) (UART1_TxHead m) (UART1_TxTail m) /\
  ring_wf UART_RX_BUFFER_SIZE (UART1_RxBuf m) (UART1_RxHead m) (UART1_RxTail m).

(** The queues the buffers of a machine stand for. *)
Definition tx0_queue (m : machine) (q : list Z) : Prop :=
  ring_queue UART_TX_BUFFER_SIZE (UART_TxBuf m) (UART_TxHead m) (UART_TxTail m) q.
Definition rx0_queue (m : machine) (q : list Z) : Prop :=
  ring_queue UART_RX_BUFFER_SIZE (UART_RxBuf m) (UART_RxHead m) (UART_RxTail m) q.
Definition tx1_queue (m : machine) (q : list Z) : Prop :=
  ring_queue1 UART_TX_BUFFER_SIZE (UART1_TxBuf m) (UART1_TxHead m) (UART1_TxTail m) q.

(** Two variables that no function of the driver assigns. *)
Definition frozen (m m' : machine) : Prop :=
  UART1_RxBuf m' = UART1_RxBuf m /\ UART_LastRxError m' = UART_LastRxError m.

(** ** Arithmetic of the index mask and of array accesses *)

Lemma is_pow2_log (n : Z) :
  is_pow2 n = true -> exists k, 0 <= k <= 8 /\ n = 2 ^ k.
Proof.
  unfold is_pow2. rewrite existsb_exists. intros (x & Hin & Heq).
  apply Z.eqb_eq in Heq. subst x.
  apply in_map_iff in Hin. destruct Hin as (k & <- & Hk).
  exists k. split; [|reflexivity].
  simpl in Hk. lia.
Qed.

Lemma is_pow2_range (n : Z) : is_pow2 n = true -> 1 <= n <= 256.
Proof.
  intros Hp. destruct (is_pow2_log _ Hp) as (k & Hk & ->).
  assert (2 ^ 0 <= 2 ^ k) by (apply Z.pow_le_mono_r; lia).
  assert (2 ^ k <= 2 ^ 8) by (apply Z.pow_le_mono_r; lia).
  simpl in *. lia.
Qed.

(** Masking with [size - 1] and truncating to a byte is [mod size]. *)
Lemma mask_next (size h : Z) :
  is_pow2 size = true -> 0 <= h ->
  u8 (Z.land (h + 1) (size - 1)) = (h + 1) mod size.
Proof.
  intros Hp Hh. pose proof (is_pow2_range _ Hp) as Hr.
  destruct (is_pow2_log _ Hp) as (k & Hk & ->).
  replace (2 ^ k - 1) with (Z.ones k) by (rewrite Z.ones_equiv; lia).
  rewrite Z.land_ones by lia. unfold u8.
  apply Z.mod_small.
  pose proof (Z.mod_pos_bound (h + 1) (2 ^ k)). lia.
Qed.

Lemma load_store_eq (a : list Z) (i v : Z) :
  0 <= i < Z.of_nat (length a) -> load (store a i v) i = v.
Proof.
  intros Hi. unfold load, store. apply list_lookup_total_insert_eq. lia.
Qed.

Lemma load_store_ne (a : list Z) (i j v : Z) :
  0 <= i -> 0 <= j -> i <> j -> load (store a i v) j = load a j.
Proof.
  intros Hi Hj Hne. unfold load, store. apply list_lookup_total_insert_ne. lia.
Qed.

Lemma length_store (a : list Z) (i v : Z) : length (store a i v) = length a.
Proof. unfold store. apply length_insert. Qed.

(** ** Push on a full buffer *)

(** C1. On a full buffer (the slot after [head] is [tail]) both push
    primitives of channel 0 return failure and leave [head] and [tail] where
    they were, but they store a null byte at index [(head + 1) mod N], which
    is [tail]: the oldest queued byte is overwritten, every other slot is
    kept. *)
Theorem uart0_push_full_overwrites_tail (data : Z) (m : machine) :
  is_pow2 UART_TX_BUFFER_SIZE = true ->
  is_pow2 UART_RX_BUFFER_SIZE = true ->
  ring_wf UART_TX_BUFFER_SIZE (UART_TxBuf m) (UART_TxHead m) (UART_TxTail m) ->
  ring_wf UART_RX_BUFFER_SIZE (UART_RxBuf m) (UART_RxHead m) (UART_RxTail m) ->
  ((UART_TxHead m + 1) mod UART_TX_BUFFER_SIZE = UART_TxTail m ->
   fst (uart0_txpush data m) = 0 /\
   UART_TxHead (snd (uart0_txpush data m)) = UART_TxHead m /\
   UART_TxTail (snd (uart0_txpush data m)) = UART_TxTail m /\
   UART_TxBuf (snd (uart0_txpush data m)) = store (UART_TxBuf m) (UART_TxTail m) 0 /\
   load (UART_TxBuf (snd (uart0_txpush data m))) (UART_TxTail m) = 0) /\
  ((UART_RxHead m + 1) mod UART_RX_BUFFER_SIZE = UART_RxTail m ->
   fst (uart0_rxpush data m) = 0 /\
   UART_RxHead (snd (uart0_rxpush data m)) = UART_RxHead m /\
   UART_RxTail (snd (uart0_rxpush data m)) = UART_RxTail m /\
   UART_RxBuf (snd (uart0_rxpush data m)) = store (UART_RxBuf m) (UART_RxTail m) 0 /\
   load (UART_RxBuf (snd (uart0_rxpush data m))) (UART_RxTail m) = 0).
Proof.
  intros Htx Hrx (Hlt & Hth & Htt) (Hlr & Hrh & Hrt). split; intros Hfull.
  - unfold uart0_txpush, UART_TX_BUFFER_MASK.
    rewrite mask_next by (assumption || lia). rewrite Hfull, Z.eqb_refl. simpl.
    repeat split; try reflexivity. apply load_store_eq. lia.
  - unfold uart0_rxpush, UART_RX_BUFFER_MASK.
    rewrite mask_next by (assumption || lia). rewrite Hfull, Z.eqb_refl. simpl.
    repeat split; try reflexivity. apply load_store_eq. lia.
Qed.

(** ** Pop on the receive side *)

Lemma uart0_rxpop_empty (m : machine) :
  UART_RxHead m = UART_RxTail m -> uart0_rxpop m = (0, m).
Proof.
  intros He. unfold uart0_rxpop. rewrite He, Z.eqb_refl. reflexivity.
Qed.

Lemma uart0_rxpop_nonempty (m : machine) :
  is_pow2 UART_RX_BUFFER_SIZE = true ->
  0 <= UART_RxTail m ->
  UART_RxHead m <> UART_RxTail m ->
  uart0_rxpop m =
    (load (UART_RxBuf m) (UART_RxTail m),
     on_vars0 (set_RxTail ((UART_RxTail m + 1) mod UART_RX_BUFFER_SIZE)) m).
Proof.
  intros Hp Ht Hne. unfold uart0_rxpop, UART_RX_BUFFER_MASK.
  rewrite mask_next by assumption.
  destruct (Z.eqb_spec (UART_RxTail m) (UART_RxHead m)); [congruence | reflexivity].
Qed.


(** ** Number of bytes waiting *)

(** The value of [(MASK + head - tail) % MASK] for indices in range. *)
Lemma available_value (size head tail : Z) :
  2 <= size -> 0 <= head < size -> 0 <= tail < size ->
  Z.rem (size - 1 + head - tail) (size - 1) =
    if head <? tail then queued size head tail - 1
    else if head - tail =? size - 1 then 0
    else queued size head tail.
Proof.
  intros Hs Hh Ht. unfold queued.
  rewrite Z.rem_mod_nonneg by lia.
  destruct (Z.ltb_spec head tail) as [Hlt | Hge].
  - rewrite Z.mod_small by lia.
    replace (head - tail) with (head - tail + size + (-1) * size) by lia.
    rewrite Z.mod_add by lia. rewrite Z.mod_small by lia. lia.
  - destruct (Z.eqb_spec (head - tail) (size - 1)) as [He | Hne].
    + replace (size - 1 + head - tail) with (0 + 2 * (size - 1)) by lia.
      rewrite Z.mod_add by lia. apply Z.mod_0_l. lia.
    + replace (size - 1 + head - tail) with (head - tail + 1 * (size - 1)) by lia.
      rewrite Z.mod_add by lia.
      rewrite (Z.mod_small (head - tail) (size - 1)) by lia.
      rewrite Z.mod_small by lia. reflexivity.
Qed.

(** C3. [uart_available] and [uart1_available] reduce modulo
    [UART_RX_BUFFER_MASK], not modulo the capacity: they return the number of
    queued bytes only while [head] has not wrapped below [tail] and fewer than
    N - 1 bytes are queued; once [head] is below [tail] they return one less
    than the number queued, and on a full buffer with [tail = 0] they
    return 0. *)
Theorem uart_available_value (m : machine) :
  2 <= UART_RX_BUFFER_SIZE ->
  ring_wf UART_RX_BUFFER_SIZE (UART_RxBuf m) (UART_RxHead m) (UART_RxTail m) ->
  ring_wf UART_RX_BUFFER_SIZE (UART1_RxBuf m) (UART1_RxHead m) (UART1_RxTail m) ->
  uart_available m =
    Some (if UART_RxHead m <? UART_RxTail m
          then queued UART_RX_BUFFER_SIZE (UART_RxHead m) (UART_RxTail m) - 1
          else if UART_RxHead m - UART_RxTail m =? UART_RX_BUFFER_SIZE - 1 then 0
          else queued UART_RX_BUFFER_SIZE (UART_RxHead m) (UART_RxTail m)) /\
  uart1_available m =
    Some (if UART1_RxHead m <? UART1_RxTail m
          then queued UART_RX_BUFFER_SIZE (UART1_RxHead m) (UART1_RxTail m) - 1
          else if UART1_RxHead m - UART1_RxTail m =? UART_RX_BUFFER_SIZE - 1 then 0
          else queued UART_RX_BUFFER_SIZE (UART1_RxHead m) (UART1_RxTail m)).
Proof.
  intros Hs (_ & Hh0 & Ht0) (_ & Hh1 & Ht1).
  unfold uart_available, uart1_available, UART_RX_BUFFER_MASK.
  destruct (Z.eqb_spec (UART_RX_BUFFER_SIZE - 1) 0) as [He | _]; [lia |].
  rewrite !available_value by assumption. split; reflexivity.
Qed.

(** ** Constructors and the global interrupt flag *)

Lemma u8_testbit (x i : Z) : 0 <= i < 8 -> Z.testbit (u8 x) i = Z.testbit x i.
Proof.
  intros Hi. unfold u8. change 256 with (2 ^ 8).
  apply Z.mod_pow2_bits_low. lia.
Qed.

Lemma reg_set_testbit (reg b i : Z) :
  0 <= b < 8 -> 0 <= i < 8 ->
  Z.testbit (reg_set reg (Z.shiftl 1 b)) i = Z.testbit reg i || (i =? b).
Proof.
  intros Hb Hi. unfold reg_set. rewrite u8_testbit by assumption.
  rewrite Z.lor_spec, Z.shiftl_spec by lia. f_equal.
  destruct (Z.eqb_spec i b) as [-> | Hne].
  - rewrite Z.sub_diag. reflexivity.
  - destruct (Z.ltb_spec i b).
    + apply Z.testbit_neg_r. lia.
    + apply Z.bits_above_log2; simpl; lia.
Qed.

Lemma reg_clear_testbit (reg b i : Z) :
  0 <= b < 8 -> 0 <= i < 8 ->
  Z.testbit (reg_clear reg (Z.shiftl 1 b)) i = Z.testbit reg i && negb (i =? b).
Proof.
  intros Hb Hi. unfold reg_clear. rewrite u8_testbit by assumption.
  rewrite Z.land_spec, Z.lnot_spec, Z.shiftl_spec by lia. do 2 f_equal.
  destruct (Z.eqb_spec i b) as [-> | Hne].
  - rewrite Z.sub_diag. reflexivity.
  - destruct (Z.ltb_spec i b).
    + apply Z.testbit_neg_r. lia.
    + apply Z.bits_above_log2; simpl; lia.
Qed.

Lemma UARTenable_SREG (baudrate fd sb par : Z) (msg0 : list Z) (m : machine) :
  SREG (snd (UARTenable baudrate fd sb par msg0 m)) = SREG_on_exit (SREG m).
Proof.
  unfold UARTenable.
  destruct (usart_setup _ _ _ _ _) as (r & ((f & s) & p)). reflexivity.
Qed.

Lemma UART1enable_SREG (baudrate fd sb par : Z) (msg0 : list Z) (m : machine) :
  SREG (snd (UART1enable baudrate fd sb par msg0 m)) = SREG_on_exit (SREG m).
Proof.
  unfold UART1enable.
  destruct (usart_setup _ _ _ _ _) as (r & ((f & s) & p)). reflexivity.
Qed.

Lemma UARTenable_vars0 (baudrate fd sb par : Z) (msg0 : list Z) (m : machine) :
  vars0 (snd (UARTenable baudrate fd sb par msg0 m)) =
    mk_vars (UART_TxBuf m) (UART_RxBuf m) 0 0 0 0 (UART_LastRxError m) 0.
Proof.
  unfold UARTenable.
  destruct (usart_setup _ _ _ _ _) as (r & ((f & s) & p)). reflexivity.
Qed.

Lemma UART1enable_vars1 (baudrate fd sb par : Z) (msg0 : list Z) (m : machine) :
  vars1 (snd (UART1enable baudrate fd sb par msg0 m)) =
    mk_vars (UART1_TxBuf m) (UART1_RxBuf m) 0 0 0 0 (UART1_LastRxError m) 0.
Proof.
  unfold UART1enable.
  destruct (usart_setup _ _ _ _ _) as (r & ((f & s) & p)). reflexivity.
Qed.

(** C4 (amended). [UARTenable] and [UART1enable] reset the four buffer
    indices of their channel to 0; when they return, the global interrupt
    enable bit of [SREG] is set whatever it was on entry, and the other seven
    bits of [SREG] are those of the entry value. *)
Theorem enable_resets_indices_and_sets_I
    (baudrate fd sb par : Z) (msg0 : list Z) (m : machine) :
  (let m' := snd (UARTenable baudrate fd sb par msg0 m) in
   UART_TxHead m' = 0 /\ UART_TxTail m' = 0 /\
   UART_RxHead m' = 0 /\ UART_RxTail m' = 0 /\
   Z.testbit (SREG m') GLOBAL_INTERRUPT_ENABLE = true /\
   forall i, 0 <= i < 7 -> Z.testbit (SREG m') i = Z.testbit (SREG m) i) /\
  (let m' := snd (UART1enable baudrate fd sb par msg0 m) in
   UART1_TxHead m' = 0 /\ UART1_TxTail m' = 0 /\
   UART1_RxHead m' = 0 /\ UART1_RxTail m' = 0 /\
   Z.testbit (SREG m') GLOBAL_INTERRUPT_ENABLE = true /\
   forall i, 0 <= i < 7 -> Z.testbit (SREG m') i = Z.testbit (SREG m) i).
Proof.
  assert (Hbit : forall s,
    Z.testbit (SREG_on_exit s) GLOBAL_INTERRUPT_ENABLE = true /\
    forall i, 0 <= i < 7 -> Z.testbit (SREG_on_exit s) i = Z.testbit s i).
  { intros s. unfold SREG_on_exit, GLOBAL_INTERRUPT_ENABLE. split.
    - rewrite reg_set_testbit by lia. apply orb_true_r.
    - intros i Hi. rewrite reg_set_testbit by lia.
      destruct (Z.eqb_spec i 7); [lia | apply orb_false_r]. }
  split; cbv zeta.
  - unfold UART_TxHead, UART_TxTail, UART_RxHead, UART_RxTail.
    rewrite UARTenable_vars0, UARTenable_SREG. simpl.
    repeat (split; [reflexivity |]). apply Hbit.
  - unfold UART1_TxHead, UART1_TxTail, UART1_RxHead, UART1_RxTail.
    rewrite UART1enable_vars1, UART1enable_SREG. simpl.
    repeat (split; [reflexivity |]). apply Hbit.
Qed.

(** ** Receive interrupts *)

Lemma uart0_rxpush_vars (data : Z) (m : machine) :
  LastRxError (vars0 (snd (uart0_rxpush data m))) = LastRxError (vars0 m) /\
  vars1 (snd (uart0_rxpush data m)) = vars1 m /\
  usart0 (snd (uart0_rxpush data m)) = usart0 m /\
  usart1 (snd (uart0_rxpush data m)) = usart1 m.
Proof.
  unfold uart0_rxpush.
  destruct (negb _); repeat split.
Qed.

Lemma uart0_rxpush_room (data : Z) (m : machine) :
  is_pow2 UART_RX_BUFFER_SIZE = true ->
  0 <= UART_RxHead m ->
  (UART_RxHead m + 1) mod UART_RX_BUFFER_SIZE <> UART_RxTail m ->
  uart0_rxpush data m =
    (1, on_vars0 (set_RxHead ((UART_RxHead m + 1) mod UART_RX_BUFFER_SIZE))
          (on_vars0 (set_RxBuf (store (UART_RxBuf m) (UART_RxHead m) data)) m)).
Proof.
  intros Hp Hh Hroom. unfold uart0_rxpush, UART_RX_BUFFER_MASK.
  rewrite mask_next by assumption.
  destruct (Z.eqb_spec (UART_RxTail m) ((UART_RxHead m + 1) mod UART_RX_BUFFER_SIZE));
    [congruence | reflexivity].
Qed.

(** C5. The receive handler of channel 0 computes the classification of the
    byte but never stores it: [UART_LastRxError] is the same after the
    handler as before, whatever the status flags are. *)
Theorem uart0_rx_isr_keeps_latch (m : machine) :
  UART_LastRxError (ISR_UART0_RECEIVE m) = UART_LastRxError m.
Proof.
  unfold ISR_UART0_RECEIVE, UART_LastRxError.
  destruct (negb _); apply uart0_rxpush_vars.
Qed.

(** The handler of channel 1 does store a classification: the framing and
    overrun flags of the byte when there is room, the overflow code when the
    buffer is full. *)
Lemma uart1_rx_isr_latch (m : machine) :
  is_pow2 UART_RX_BUFFER_SIZE = true ->
  0 <= UART1_RxHead m ->
  UART1_LastRxError (SIGNAL_UART1_RECEIVE m) =
    if (UART1_RxHead m + 1) mod UART_RX_BUFFER_SIZE =? UART1_RxTail m
    then u8 (Z.shiftr UART_BUFFER_OVERFLOW 8)
    else Z.land (UART1_STATUS m) (Z.lor (_BV FE) (_BV DOR)).
Proof.
  intros Hp Hh. unfold SIGNAL_UART1_RECEIVE, UART_RX_BUFFER_MASK.
  rewrite mask_next by assumption.
  destruct (_ =? UART1_RxTail m); [reflexivity |].
  destruct (negb _); reflexivity.
Qed.

(** On a framing or overrun error with room in the buffer, the handler of
    channel 0 queues ['X'] in its own buffer and leaves channel 1 alone. *)
Lemma uart0_rx_error_pushes_X (m : machine) :
  is_pow2 UART_RX_BUFFER_SIZE = true ->
  0 <= UART_RxHead m ->
  Z.land (UART0_STATUS m) (Z.lor (_BV FE) (_BV DOR)) <> 0 ->
  (UART_RxHead m + 1) mod UART_RX_BUFFER_SIZE <> UART_RxTail m ->
  UART_RxBuf (ISR_UART0_RECEIVE m) = store (UART_RxBuf m) (UART_RxHead m) 88 /\
  UART_RxHead (ISR_UART0_RECEIVE m) = (UART_RxHead m + 1) mod UART_RX_BUFFER_SIZE /\
  vars1 (ISR_UART0_RECEIVE m) = vars1 m.
Proof.
  intros Hp Hh Herr Hroom. unfold ISR_UART0_RECEIVE.
  destruct (Z.eqb_spec (Z.land (UART0_STATUS m) (Z.lor (_BV FE) (_BV DOR))) 0);
    [congruence |].
  simpl. rewrite uart0_rxpush_room by assumption. repeat split.
Qed.

(** C6. On a framing or overrun error with room in its buffer, the receive
    handler of channel 1 advances [UART1_RxHead] but stores ['X'] in
    [UART_RxBuf], the receive storage of channel 0, at the new head index;
    [UART1_RxBuf] is left as it was. *)
Theorem uart1_rx_error_writes_channel0 (m : machine) :
  is_pow2 UART_RX_BUFFER_SIZE = true ->
  ring_wf UART_RX_BUFFER_SIZE (UART1_RxBuf m) (UART1_RxHead m) (UART1_RxTail m) ->
  Z.land (UART1_STATUS m) (Z.lor (_BV FE) (_BV DOR)) <> 0 ->
  (UART1_RxHead m + 1) mod UART_RX_BUFFER_SIZE <> UART1_RxTail m ->
  UART1_RxHead (SIGNAL_UART1_RECEIVE m) = (UART1_RxHead m + 1) mod UART_RX_BUFFER_SIZE /\
  UART1_RxBuf (SIGNAL_UART1_RECEIVE m) = UART1_RxBuf m /\
  UART_RxBuf (SIGNAL_UART1_RECEIVE m) =
    store (UART_RxBuf m) ((UART1_RxHead m + 1) mod UART_RX_BUFFER_SIZE) 88 /\
  UART_RxHead (SIGNAL_UART1_RECEIVE m) = UART_RxHead m.
Proof.
  intros Hp (_ & Hh & _) Herr Hroom.
  unfold SIGNAL_UART1_RECEIVE, UART_RX_BUFFER_MASK.
  rewrite mask_next by (assumption || lia).
  destruct (Z.eqb_spec ((UART1_RxHead m + 1) mod UART_RX_BUFFER_SIZE) (UART1_RxTail m));
    [congruence |].
  destruct (Z.eqb_spec (Z.land (UART1_STATUS m) (Z.lor (_BV FE) (_BV DOR))) 0);
    [congruence |].
  repeat split.
Qed.

(** ** Transmit path *)

Lemma uart0_txpush_room (data : Z) (m : machine) :
  is_pow2 UART_TX_BUFFER_SIZE = true ->
  0 <= UART_TxHead m ->
  (UART_TxHead m + 1) mod UART_TX_BUFFER_SIZE <> UART_TxTail m ->
  uart0_txpush data m =
    (1, on_vars0 (set_TxHead ((UART_TxHead m + 1) mod UART_TX_BUFFER_SIZE))
          (on_vars0 (set_TxBuf (store (UART_TxBuf m) (UART_TxHead m) data)) m)).
Proof.
  intros Hp Hh Hroom. unfold uart0_txpush, UART_TX_BUFFER_MASK.
  rewrite mask_next by assumption.
  destruct (Z.eqb_spec (UART_TxTail m) ((UART_TxHead m + 1) mod UART_TX_BUFFER_SIZE));
    [congruence | reflexivity].
Qed.

Lemma uart_putc_room (data : Z) (m : machine) :
  is_pow2 UART_TX_BUFFER_SIZE = true ->
  0 <= UART_TxHead m ->
  (UART_TxHead m + 1) mod UART_TX_BUFFER_SIZE <> UART_TxTail m ->
  uart_putc data m =
    on_usart0 (fun u => set_CONTROL (reg_set (CONTROL u) (_BV UDRIE)) u)
      (on_vars0 (set_TxHead ((UART_TxHead m + 1) mod UART_TX_BUFFER_SIZE))
         (on_vars0 (set_TxBuf (store (UART_TxBuf m) (UART_TxHead m) data)) m)).
Proof.
  intros Hp Hh Hroom. unfold uart_putc.
  rewrite uart0_txpush_room by assumption. reflexivity.
Qed.

Lemma uart0_txpop_empty (m : machine) :
  UART_TxHead m = UART_TxTail m -> uart0_txpop m = (0, m).
Proof.
  intros He. unfold uart0_txpop. rewrite He, Z.eqb_refl. reflexivity.
Qed.

Lemma uart0_txpop_nonempty (m : machine) :
  is_pow2 UART_TX_BUFFER_SIZE = true ->
  0 <= UART_TxTail m ->
  UART_TxHead m <> UART_TxTail m ->
  uart0_txpop m =
    (load (UART_TxBuf m) (UART_TxTail m),
     on_vars0 (set_TxTail ((UART_TxTail m + 1) mod UART_TX_BUFFER_SIZE)) m).
Proof.
  intros Hp Ht Hne. unfold uart0_txpop, UART_TX_BUFFER_MASK.
  rewrite mask_next by assumption.
  destruct (Z.eqb_spec (UART_TxTail m) (UART_TxHead m)); [congruence | reflexivity].
Qed.

(** The three ways the transmit handler of channel 0 can go. *)
Lemma ISR_UART0_TRANSMIT_sends (m : machine) :
  is_pow2 UART_TX_BUFFER_SIZE = true ->
  0 <= UART_TxTail m ->
  UART_TxHead m <> UART_TxTail m ->
  load (UART_TxBuf m) (UART_TxTail m) <> 0 ->
  ISR_UART0_TRANSMIT m =
    on_usart0 (write_UDR (load (UART_TxBuf m) (UART_TxTail m)))
      (on_vars0 (set_TxTail ((UART_TxTail m + 1) mod UART_TX_BUFFER_SIZE)) m).
Proof.
  intros Hp Ht Hne Hd. unfold ISR_UART0_TRANSMIT.
  rewrite uart0_txpop_nonempty by assumption.
  destruct (Z.eqb_spec (load (UART_TxBuf m) (UART_TxTail m)) 0); [congruence | reflexivity].
Qed.

Lemma ISR_UART0_TRANSMIT_idle (m : machine) :
  UART_TxHead m = UART_TxTail m ->
  ISR_UART0_TRANSMIT m =
    on_usart0 (fun u => set_CONTROL (reg_clear (CONTROL u) (_BV UDRIE)) u) m.
Proof.
  intros He. unfold ISR_UART0_TRANSMIT. rewrite uart0_txpop_empty by assumption.
  reflexivity.
Qed.

Lemma ISR_UART0_TRANSMIT_null (m : machine) :
  is_pow2 UART_TX_BUFFER_SIZE = true ->
  0 <= UART_TxTail m ->
  UART_TxHead m <> UART_TxTail m ->
  load (UART_TxBuf m) (UART_TxTail m) = 0 ->
  ISR_UART0_TRANSMIT m =
    on_usart0 (fun u => set_CONTROL (reg_clear (CONTROL u) (_BV UDRIE)) u)
      (on_vars0 (set_TxTail ((UART_TxTail m + 1) mod UART_TX_BUFFER_SIZE)) m).
Proof.
  intros Hp Ht Hne Hd. unfold ISR_UART0_TRANSMIT.
  rewrite uart0_txpop_nonempty by assumption. rewrite Hd. reflexivity.
Qed.

Lemma UARTenable_usart0 (baudrate fd sb par : Z) (msg0 : list Z) (m : machine) :
  usart0 (snd (UARTenable baudrate fd sb par msg0 m)) =
    fst (usart_setup baudrate fd sb par (usart0 m)).
Proof.
  unfold UARTenable.
  destruct (usart_setup _ _ _ _ _) as (r & ((f & s) & p)). reflexivity.
Qed.

Lemma frame_format_UDR_tx (fd sb par : Z) (r : usart_regs) :
  UDR_tx (fst (frame_format fd sb par r)) = UDR_tx r.
Proof.
  unfold frame_format.
  repeat match goal with |- context [if ?c then _ else _] => destruct c end;
    reflexivity.
Qed.

Lemma usart_setup_UDR_tx (baudrate fd sb par : Z) (r : usart_regs) :
  UDR_tx (fst (usart_setup baudrate fd sb par r)) = UDR_tx r.
Proof.
  unfold usart_setup.
  destruct (negb _); rewrite frame_format_UDR_tx; reflexivity.
Qed.

(** C7 (amended). After [UARTenable], [uart_putc('H')], [uart_putc('i')] and
    two firings of the transmit handler, the data register has received ['H']
    then ['i'] and the transmit buffer is empty, but the transmit-ready
    interrupt is still enabled; the third firing finds the buffer empty,
    writes nothing and clears the enable bit. *)
Theorem write_Hi_drains (baudrate fd sb par : Z) (msg0 : list Z) (m : machine) :
  is_pow2 UART_TX_BUFFER_SIZE = true ->
  4 <= UART_TX_BUFFER_SIZE ->
  Z.of_nat (length (UART_TxBuf m)) = UART_TX_BUFFER_SIZE ->
  let m2 := ISR_UART0_TRANSMIT (ISR_UART0_TRANSMIT (write_Hi baudrate fd sb par msg0 m)) in
  let m3 := ISR_UART0_TRANSMIT m2 in
  (UDR_tx (usart0 m2) = UDR_tx (usart0 m) ++ [72; 105] /\
   UART_TxHead m2 = UART_TxTail m2 /\
   Z.testbit (UART0_CONTROL m2) UDRIE = true) /\
  (UDR_tx (usart0 m3) = UDR_tx (usart0 m) ++ [72; 105] /\
   UART_TxHead m3 = UART_TxTail m3 /\
   Z.testbit (UART0_CONTROL m3) UDRIE = false).
Proof.
  intros Hp Hsz Hlen m2 m3.
  pose proof (UARTenable_vars0 baudrate fd sb par msg0 m) as Hv.
  pose proof (UARTenable_usart0 baudrate fd sb par msg0 m) as Hu.
  remember (snd (UARTenable baudrate fd sb par msg0 m)) as m0 eqn:Hm0.
  assert (H1 : 1 mod UART_TX_BUFFER_SIZE = 1) by (apply Z.mod_small; lia).
  assert (H2 : 2 mod UART_TX_BUFFER_SIZE = 2) by (apply Z.mod_small; lia).
  assert (Hl0 : load (store (store (UART_TxBuf m) 0 72) 1 105) 0 = 72).
  { rewrite load_store_ne by lia. apply load_store_eq. lia. }
  assert (Hl1 : load (store (store (UART_TxBuf m) 0 72) 1 105) 1 = 105).
  { apply load_store_eq. rewrite length_store. lia. }
  assert (Hout : UDR_tx (usart0 m0) = UDR_tx (usart0 m))
    by (rewrite Hu; apply usart_setup_UDR_tx).
  clear Hu. destruct m0 as [v0 v1 r0 r1 sr]. cbn in Hv, Hout. subst v0.
  (* the two writes *)
  assert (Hw : write_Hi baudrate fd sb par msg0 m =
    mk_machine
      (mk_vars (store (store (UART_TxBuf m) 0 72) 1 105) (UART_RxBuf m) 2 0 0 0
               (UART_LastRxError m) 0)
      v1
      (set_CONTROL (reg_set (reg_set (CONTROL r0) (_BV UDRIE)) (_BV UDRIE)) r0)
      r1 sr).
  { unfold write_Hi. rewrite <- Hm0.
    rewrite (uart_putc_room 72);
      cbn [UART_TxHead UART_TxTail UART_TxBuf vars0 TxHead TxTail TxBuf];
      change (0 + 1) with 1; rewrite ?H1; try (assumption || lia).
    rewrite (uart_putc_room 105);
      cbn [UART_TxHead UART_TxTail UART_TxBuf vars0 on_usart0 on_vars0
           set_TxHead set_TxBuf TxHead TxTail TxBuf];
      change (1 + 1) with 2; rewrite ?H2; try (assumption || lia).
    reflexivity. }
  (* the two firings that find a byte *)
  assert (Hm1 : ISR_UART0_TRANSMIT (write_Hi baudrate fd sb par msg0 m) =
    mk_machine
      (mk_vars (store (store (UART_TxBuf m) 0 72) 1 105) (UART_RxBuf m) 2 1 0 0
               (UART_LastRxError m) 0)
      v1
      (write_UDR 72
        (set_CONTROL (reg_set (reg_set (CONTROL r0) (_BV UDRIE)) (_BV UDRIE)) r0))
      r1 sr).
  { rewrite Hw.
    rewrite ISR_UART0_TRANSMIT_sends;
      cbn [UART_TxHead UART_TxTail UART_TxBuf vars0 TxHead TxTail TxBuf];
      rewrite ?Hl0; change (0 + 1) with 1; rewrite ?H1; try (assumption || lia).
    reflexivity. }
  assert (Hm2 : m2 =
    mk_machine
      (mk_vars (store (store (UART_TxBuf m) 0 72) 1 105) (UART_RxBuf m) 2 2 0 0
               (UART_LastRxError m) 0)
      v1
      (write_UDR 105 (write_UDR 72
        (set_CONTROL (reg_set (reg_set (CONTROL r0) (_BV UDRIE)) (_BV UDRIE)) r0)))
      r1 sr).
  { subst m2. rewrite Hm1.
    rewrite ISR_UART0_TRANSMIT_sends;
      cbn [UART_TxHead UART_TxTail UART_TxBuf vars0 TxHead TxTail TxBuf];
      rewrite ?Hl1; change (1 + 1) with 2; rewrite ?H2; try (assumption || lia).
    reflexivity. }
  assert (Hm3 : m3 = on_usart0 (fun u => set_CONTROL (reg_clear (CONTROL u) (_BV UDRIE)) u) m2).
  { subst m3. apply ISR_UART0_TRANSMIT_idle. rewrite Hm2. reflexivity. }
  rewrite Hm3, Hm2. clear Hm3 Hm2 Hw m3 m2.
  cbn [usart0 on_usart0 UDR_tx write_UDR set_CONTROL CONTROL UART_TxHead UART_TxTail
       UART0_CONTROL vars0 TxHead TxTail STATUS UCSRC UBRRH UBRRL UDR_rx].
  rewrite Hout, <- !app_assoc. cbn [app]. unfold _BV.
  rewrite reg_clear_testbit, !reg_set_testbit by (unfold UDRIE; lia).
  rewrite Z.eqb_refl, orb_true_r.
  repeat split.
Qed.

(** ** Flush *)

(** C8 (amended). [uart_flush] and [uart1_flush] discard the queued bytes by
    setting [head] to [tail]: [tail] and the storage are unchanged, the buffer
    is empty afterwards, and a second flush changes nothing. *)
Theorem flush_moves_head (m : machine) :
  (UART_RxHead (uart_flush m) = UART_RxTail m /\
   UART_RxTail (uart_flush m) = UART_RxTail m /\
   UART_RxBuf (uart_flush m) = UART_RxBuf m /\
   UART_RxHead (uart_flush m) = UART_RxTail (uart_flush m) /\
   uart_flush (uart_flush m) = uart_flush m) /\
  (UART1_RxHead (uart1_flush m) = UART1_RxTail m /\
   UART1_RxTail (uart1_flush m) = UART1_RxTail m /\
   UART1_RxBuf (uart1_flush m) = UART1_RxBuf m /\
   UART1_RxHead (uart1_flush m) = UART1_RxTail (uart1_flush m) /\
   uart1_flush (uart1_flush m) = uart1_flush m).
Proof.
  repeat split.
Qed.

(** ** Line accumulator *)

Lemma store_checked_in (a : list Z) (i v : Z) :
  0 <= i < Z.of_nat (length a) -> store_checked a i v = Some (store a i v).
Proof.
  intros Hi. unfold store_checked.
  destruct (Z.leb_spec 0 i); [| lia].
  destruct (Z.ltb_spec i (Z.of_nat (length a))); [reflexivity | lia].
Qed.

Lemma store_checked_out (a : list Z) (i v : Z) :
  Z.of_nat (length a) <= i -> store_checked a i v = None.
Proof.
  intros Hi. unfold store_checked.
  destruct (Z.ltb_spec i (Z.of_nat (length a))); [lia |].
  rewrite andb_false_r. reflexivity.
Qed.

(** One call of [uart_read] that pops a non-null byte: the byte is appended
    when two more slots are free, and a write leaves [msg] otherwise. *)
Lemma uart_read_appends (uart : UART) (m : machine) :
  is_pow2 UART_RX_BUFFER_SIZE = true ->
  0 <= UART_RxTail m ->
  UART_RxHead m <> UART_RxTail m ->
  load (UART_RxBuf m) (UART_RxTail m) <> 0 ->
  0 <= index uart ->
  index uart + 1 < Z.of_nat (length (msg uart)) ->
  uart_read uart m =
    Some (mk_UART (index uart + 1)
            (store (store (msg uart) (index uart) (load (UART_RxBuf m) (UART_RxTail m)))
                   (index uart + 1) 0)
            (ubrr uart) (FDbits uart) (Stopbits uart) (Parity uart),
          on_vars0 (set_RxTail ((UART_RxTail m + 1) mod UART_RX_BUFFER_SIZE)) m).
Proof.
  intros Hp Ht Hne Hd Hi Hroom. unfold uart_read.
  rewrite uart0_rxpop_nonempty by assumption.
  destruct (Z.eqb_spec (load (UART_RxBuf m) (UART_RxTail m)) 0); [congruence |].
  cbn [negb]. rewrite store_checked_in by lia.
  rewrite store_checked_in by (rewrite length_store; lia). reflexivity.
Qed.

Lemma uart_read_overruns (uart : UART) (m : machine) :
  is_pow2 UART_RX_BUFFER_SIZE = true ->
  0 <= UART_RxTail m ->
  UART_RxHead m <> UART_RxTail m ->
  load (UART_RxBuf m) (UART_RxTail m) <> 0 ->
  Z.of_nat (length (msg uart)) <= index uart + 1 ->
  uart_read uart m = None.
Proof.
  intros Hp Ht Hne Hd Hfull. unfold uart_read.
  rewrite uart0_rxpop_nonempty by assumption.
  destruct (Z.eqb_spec (load (UART_RxBuf m) (UART_RxTail m)) 0); [congruence |].
  cbn [negb].
  destruct (store_checked (msg uart) (index uart) _) as [msg1 |] eqn:E; [| reflexivity].
  rewrite store_checked_out; [reflexivity |].
  unfold store_checked in E. destruct (_ && _); [| discriminate].
  injection E as <-. rewrite length_store. assumption.
Qed.

(** With at least two slots, the index after [h] is not [h]. *)
Lemma next_ne (size h : Z) :
  2 <= size -> 0 <= h < size -> (h + 1) mod size <> h.
Proof.
  intros Hs Hh Heq.
  destruct (Z.eq_dec (h + 1) size) as [E | E].
  - rewrite E, Z.mod_same in Heq by lia. lia.
  - rewrite Z.mod_small in Heq by lia. lia.
Qed.

(** The state after a byte without error arrived on an empty channel 0. *)
Lemma ISR_UART0_RECEIVE_clean (b : Z) (m : machine) :
  is_pow2 UART_RX_BUFFER_SIZE = true ->
  2 <= UART_RX_BUFFER_SIZE ->
  ring_wf UART_RX_BUFFER_SIZE (UART_RxBuf m) (UART_RxHead m) (UART_RxTail m) ->
  UART_RxHead m = UART_RxTail m ->
  ISR_UART0_RECEIVE (on_usart0 (receive 0 b) m) =
    on_vars0 (set_RxHead ((UART_RxHead m + 1) mod UART_RX_BUFFER_SIZE))
      (on_vars0 (set_RxBuf (store (UART_RxBuf m) (UART_RxHead m) b))
         (on_usart0 (receive 0 b) m)).
Proof.
  intros Hp Hsz (Hlen & Hh & Ht) He. unfold ISR_UART0_RECEIVE.
  cbn [UART0_STATUS UART0_DATA usart0 on_usart0 receive STATUS UDR_rx].
  rewrite Z.land_0_l. cbn [Z.eqb negb].
  rewrite uart0_rxpush_room.
  - reflexivity.
  - assumption.
  - apply Hh.
  - change (UART_RxHead (on_usart0 (receive 0 b) m)) with (UART_RxHead m).
    change (UART_RxTail (on_usart0 (receive 0 b) m)) with (UART_RxTail m).
    rewrite <- He. apply next_ne; assumption.
Qed.

(** C9. [uart_read] has no bound on [uart->index]: when non-null bytes arrive
    one at a time on an empty channel 0 and each is fetched with [uart_read],
    the cursor grows by one per call, and as soon as as many bytes have come
    as [msg] has slots left a call writes outside [msg].  ([msg] is taken to
    have at most 127 slots, so that the cursor cannot wrap before it reaches
    the end, whatever integer type uart.h gives it.) *)
Theorem uart_read_leaves_msg (bs : list Z) (uart : UART) (m : machine) :
  is_pow2 UART_RX_BUFFER_SIZE = true ->
  2 <= UART_RX_BUFFER_SIZE ->
  ring_wf UART_RX_BUFFER_SIZE (UART_RxBuf m) (UART_RxHead m) (UART_RxTail m) ->
  UART_RxHead m = UART_RxTail m ->
  0 <= index uart ->
  Forall (fun b => b <> 0) bs ->
  bs <> [] ->
  Z.of_nat (length (msg uart)) <= index uart + Z.of_nat (length bs) ->
  Z.of_nat (length (msg uart)) <= 127 ->
  receive_and_read_all bs (uart, m) = None.
Proof.
  intros Hp Hsz. revert uart m.
  induction bs as [| b bs IH]; intros uart m Hwf He Hi Hnz Hne Hlen Hsmall;
    [congruence |].
  apply Forall_cons in Hnz. destruct Hnz as [Hb Hnz].
  pose proof Hwf as (Hl & Hh & Ht).
  cbn [receive_and_read_all]. unfold receive_and_read. cbn [fst snd].
  rewrite ISR_UART0_RECEIVE_clean by assumption.
  set (m1 := on_vars0 _ _).
  assert (Hm1t : UART_RxTail m1 = UART_RxTail m) by reflexivity.
  assert (Hm1h : UART_RxHead m1 = (UART_RxHead m + 1) mod UART_RX_BUFFER_SIZE)
    by reflexivity.
  assert (Hm1b : UART_RxBuf m1 = store (UART_RxBuf m) (UART_RxHead m) b) by reflexivity.
  assert (Hne1 : UART_RxHead m1 <> UART_RxTail m1).
  { rewrite Hm1h, Hm1t, <- He. apply next_ne; assumption. }
  assert (Hd : load (UART_RxBuf m1) (UART_RxTail m1) = b).
  { rewrite Hm1b, Hm1t, <- He. apply load_store_eq. lia. }
  destruct (Z_lt_le_dec (index uart + 1) (Z.of_nat (length (msg uart)))) as [Hroom | Hfull].
  - rewrite uart_read_appends; rewrite ?Hd, ?Hm1t; try (assumption || lia).
    set (m2 := on_vars0 _ m1).
    assert (Hm2t : UART_RxTail m2 = (UART_RxTail m + 1) mod UART_RX_BUFFER_SIZE)
      by reflexivity.
    assert (Hm2h : UART_RxHead m2 = (UART_RxHead m + 1) mod UART_RX_BUFFER_SIZE)
      by reflexivity.
    assert (Hm2b : UART_RxBuf m2 = store (UART_RxBuf m) (UART_RxHead m) b)
      by reflexivity.
    assert (Hnext : 0 <= (UART_RxHead m + 1) mod UART_RX_BUFFER_SIZE
                    < UART_RX_BUFFER_SIZE) by (apply Z.mod_pos_bound; lia).
    cbn [length] in Hlen.
    apply IH; cbn [index msg]; rewrite ?Hm2t, ?Hm2h, ?Hm2b, ?length_store;
      try (assumption || lia).
    + rewrite <- He. repeat split; try lia. rewrite length_store. exact Hl.
    + rewrite He. reflexivity.
    + intros ->. cbn [length] in Hlen. lia.
  - rewrite uart_read_overruns; rewrite ?Hd, ?Hm1t; try (assumption || lia).
    reflexivity.
Qed.

(** [uart1_read] checks its cursor before it appends: with a [msg] of
    [UART_RX_BUFFER_SIZE] slots every call stays inside it. *)
Lemma uart1_read_in_bounds (uart : UART) (m : machine) :
  Z.of_nat (length (msg uart)) = UART_RX_BUFFER_SIZE ->
  0 <= index uart < UART_RX_BUFFER_SIZE ->
  exists r uart' m',
    uart1_read uart m = Some (r, uart', m') /\
    0 <= index uart' < UART_RX_BUFFER_SIZE /\
    length (msg uart') = length (msg uart).
Proof.
  intros Hlen Hi. unfold uart1_read, UART_RX_BUFFER_MASK.
  destruct (negb _ && (index uart <? UART_RX_BUFFER_SIZE - 1)) eqn:E.
  - apply andb_true_iff in E. destruct E as [_ E]. apply Z.ltb_lt in E.
    rewrite store_checked_in by lia.
    rewrite store_checked_in by (rewrite length_store; lia).
    do 3 eexists. split; [reflexivity |]. cbn [index msg].
    rewrite !length_store. split; [lia | reflexivity].
  - do 3 eexists. split; [reflexivity |]. cbn [index msg].
    split; [lia | reflexivity].
Qed.

(** ** Null bytes *)

(** C10. At the pop interface of channel 0 a queued null byte cannot be told
    from an empty buffer: [uart0_txpop] and [uart0_rxpop] return 0 in both
    cases.  Hence, when the next byte to transmit is null, the transmit
    handler pops it, writes nothing to the data register and clears the
    transmit-ready interrupt enable bit, whatever else is queued. *)
Theorem null_byte_reads_as_empty (m : machine) :
  is_pow2 UART_TX_BUFFER_SIZE = true ->
  is_pow2 UART_RX_BUFFER_SIZE = true ->
  ring_wf UART_TX_BUFFER_SIZE (UART_TxBuf m) (UART_TxHead m) (UART_TxTail m) ->
  ring_wf UART_RX_BUFFER_SIZE (UART_RxBuf m) (UART_RxHead m) (UART_RxTail m) ->
  (UART_TxHead m = UART_TxTail m -> fst (uart0_txpop m) = 0) /\
  (UART_TxHead m <> UART_TxTail m -> load (UART_TxBuf m) (UART_TxTail m) = 0 ->
   fst (uart0_txpop m) = 0 /\
   UART_TxTail (snd (uart0_txpop m)) = (UART_TxTail m + 1) mod UART_TX_BUFFER_SIZE) /\
  (UART_RxHead m = UART_RxTail m -> fst (uart0_rxpop m) = 0) /\
  (UART_RxHead m <> UART_RxTail m -> load (UART_RxBuf m) (UART_RxTail m) = 0 ->
   fst (uart0_rxpop m) = 0 /\
   UART_RxTail (snd (uart0_rxpop m)) = (UART_RxTail m + 1) mod UART_RX_BUFFER_SIZE) /\
  (UART_TxHead m <> UART_TxTail m -> load (UART_TxBuf m) (UART_TxTail m) = 0 ->
   UART_TxTail (ISR_UART0_TRANSMIT m) = (UART_TxTail m + 1) mod UART_TX_BUFFER_SIZE /\
   UART_TxHead (ISR_UART0_TRANSMIT m) = UART_TxHead m /\
   UDR_tx (usart0 (ISR_UART0_TRANSMIT m)) = UDR_tx (usart0 m) /\
   Z.testbit (UART0_CONTROL (ISR_UART0_TRANSMIT m)) UDRIE = false).
Proof.
  intros Hpt Hpr (_ & _ & Htt) (_ & _ & Hrt).
  split; [intros He; rewrite uart0_txpop_empty by assumption; reflexivity |].
  split.
  { intros Hne Hd. rewrite uart0_txpop_nonempty by (assumption || lia).
    split; [exact Hd | reflexivity]. }
  split; [intros He; rewrite uart0_rxpop_empty by assumption; reflexivity |].
  split.
  { intros Hne Hd. rewrite uart0_rxpop_nonempty by (assumption || lia).
    split; [exact Hd | reflexivity]. }
  intros Hne Hd. rewrite ISR_UART0_TRANSMIT_null by (assumption || lia).
  repeat split.
  cbn [UART0_CONTROL usart0 on_usart0 on_vars0 set_CONTROL CONTROL]. unfold _BV.
  rewrite reg_clear_testbit by (unfold UDRIE; lia).
  rewrite Z.eqb_refl. apply andb_false_r.
Qed.

(** ** Circular buffers are queues *)

Lemma mod_shift_ne (size t k : Z) :
  0 <= t < size -> 0 < k < size -> (t + k) mod size <> t.
Proof.
  intros Ht Hk Heq.
  destruct (Z_lt_le_dec (t + k) size) as [Hlt | Hge].
  - rewrite Z.mod_small in Heq by lia. lia.
  - replace (t + k) with (t + k - size + 1 * size) in Heq by lia.
    rewrite Z.mod_add, Z.mod_small in Heq by lia. lia.
Qed.

Lemma mod_succ_shift (size t k : Z) :
  0 < size -> ((t + 1) mod size + k) mod size = (t + (k + 1)) mod size.
Proof.
  intros Hs. rewrite Zplus_mod_idemp_l. f_equal. lia.
Qed.

(** Writing the first free slot appends to the queue. *)
Lemma holds_store (size : Z) (buf : list Z) (b : Z) (q : list Z) (t : Z) :
  Z.of_nat (length buf) = size ->
  0 <= t < size ->
  Z.of_nat (length q) < size ->
  holds size buf t q ->
  holds size (store buf ((t + Z.of_nat (length q)) mod size) b) t (q ++ [b]).
Proof.
  intros Hlen. revert t.
  induction q as [| b0 q IH]; intros t Ht Hq Hh.
  - cbn [length app holds]. rewrite Z.add_0_r, Z.mod_small by lia.
    split; [apply load_store_eq; lia | exact I].
  - cbn [length app holds] in *. destruct Hh as [Hb Hh].
    rewrite Nat2Z.inj_succ in *.
    split.
    + rewrite load_store_ne; [exact Hb | | lia |].
      * apply Z.mod_pos_bound. lia.
      * apply mod_shift_ne; lia.
    + replace ((t + Z.succ (Z.of_nat (length q))) mod size)
        with (((t + 1) mod size + Z.of_nat (length q)) mod size)
        by (rewrite mod_succ_shift by lia; f_equal; lia).
      apply IH; [apply Z.mod_pos_bound; lia | lia | exact Hh].
Qed.

Lemma ring_queue_push (size : Z) (buf : list Z) (head tail b : Z) (q : list Z) :
  ring_queue size buf head tail q ->
  Z.of_nat (length q) + 1 < size ->
  (head + 1) mod size <> tail /\
  ring_queue size (store buf head b) ((head + 1) mod size) tail (q ++ [b]).
Proof.
  intros ((Hlen & Hh & Ht) & Hq & Hhead & Hholds) Hroom.
  assert (Hnext : (head + 1) mod size = (tail + (Z.of_nat (length q) + 1)) mod size).
  { rewrite Hhead. rewrite Zplus_mod_idemp_l. f_equal. lia. }
  split.
  - rewrite Hnext. apply mod_shift_ne; lia.
  - assert (Hb1 : 0 <= (head + 1) mod size < size) by (apply Z.mod_pos_bound; lia).
    unfold ring_queue, ring_wf.
    rewrite length_store, length_app. cbn [length]. rewrite Nat2Z.inj_add.
    split; [split; [exact Hlen | split; [exact Hb1 | exact Ht]] |].
    split; [change (Z.of_nat 1) with 1; lia |].
    split; [exact Hnext |].
    rewrite Hhead. apply holds_store; assumption.
Qed.

Lemma ring_queue_pop (size : Z) (buf : list Z) (head tail b : Z) (q : list Z) :
  ring_queue size buf head tail (b :: q) ->
  head <> tail /\ load buf tail = b /\
  ring_queue size buf head ((tail + 1) mod size) q.
Proof.
  intros ((Hlen & Hh & Ht) & Hq & Hhead & Hb & Hholds).
  cbn [length] in *. rewrite Nat2Z.inj_succ in *.
  split; [rewrite Hhead; apply mod_shift_ne; lia |].
  split; [exact Hb |].
  unfold ring_queue, ring_wf.
  split; [split; [exact Hlen | split; [exact Hh | apply Z.mod_pos_bound; lia]] |].
  split; [lia |].
  split; [| exact Hholds].
  rewrite mod_succ_shift by lia. rewrite Hhead. f_equal; lia.
Qed.

Lemma ring_queue_empty (size : Z) (buf : list Z) (head tail : Z) (q : list Z) :
  ring_queue size buf head tail q -> (head = tail <-> q = []).
Proof.
  intros ((Hlen & Hh & Ht) & Hq & Hhead & _). split.
  - intros He. destruct q as [| b q]; [reflexivity | exfalso].
    cbn [length] in *. rewrite Nat2Z.inj_succ in *.
    revert He. rewrite Hhead. apply mod_shift_ne; lia.
  - intros ->. cbn [length] in Hhead.
    rewrite Z.add_0_r, Z.mod_small in Hhead by lia. exact Hhead.
Qed.

Lemma ring_queue1_push (size : Z) (buf : list Z) (head tail b : Z) (q : list Z) :
  ring_queue1 size buf head tail q ->
  Z.of_nat (length q) + 1 < size ->
  (head + 1) mod size <> tail /\
  ring_queue1 size (store buf ((head + 1) mod size) b) ((head + 1) mod size) tail
              (q ++ [b]).
Proof.
  intros ((Hlen & Hh & Ht) & Hq & Hhead & Hholds) Hroom.
  assert (Hnext : (head + 1) mod size = (tail + (Z.of_nat (length q) + 1)) mod size).
  { rewrite Hhead. rewrite Zplus_mod_idemp_l. f_equal. lia. }
  assert (Hb1 : 0 <= (head + 1) mod size < size) by (apply Z.mod_pos_bound; lia).
  split; [rewrite Hnext; apply mod_shift_ne; lia |].
  unfold ring_queue1, ring_wf.
  rewrite length_store, length_app. cbn [length]. rewrite Nat2Z.inj_add.
  split; [split; [exact Hlen | split; [exact Hb1 | exact Ht]] |].
  split; [change (Z.of_nat 1) with 1; lia |].
  split; [exact Hnext |].
  replace ((head + 1) mod size)
    with (((tail + 1) mod size + Z.of_nat (length q)) mod size)
    by (rewrite Hnext, mod_succ_shift by lia; reflexivity).
  apply holds_store; [exact Hlen | apply Z.mod_pos_bound; lia | exact Hq | exact Hholds].
Qed.

Lemma ring_queue1_pop (size : Z) (buf : list Z) (head tail b : Z) (q : list Z) :
  ring_queue1 size buf head tail (b :: q) ->
  head <> tail /\ load buf ((tail + 1) mod size) = b /\
  ring_queue1 size buf head ((tail + 1) mod size) q.
Proof.
  intros ((Hlen & Hh & Ht) & Hq & Hhead & Hb & Hholds).
  cbn [length] in *. rewrite Nat2Z.inj_succ in *.
  split; [rewrite Hhead; apply mod_shift_ne; lia |].
  split; [exact Hb |].
  unfold ring_queue1, ring_wf.
  split; [split; [exact Hlen | split; [exact Hh | apply Z.mod_pos_bound; lia]] |].
  split; [lia |].
  split; [| exact Hholds].
  rewrite mod_succ_shift by lia. rewrite Hhead. f_equal; lia.
Qed.

Lemma ring_queue1_empty (size : Z) (buf : list Z) (head tail : Z) (q : list Z) :
  ring_queue1 size buf head tail q -> (head = tail <-> q = []).
Proof.
  intros ((Hlen & Hh & Ht) & Hq & Hhead & _). split.
  - intros He. destruct q as [| b q]; [reflexivity | exfalso].
    cbn [length] in *. rewrite Nat2Z.inj_succ in *.
    revert He. rewrite Hhead. apply mod_shift_ne; lia.
  - intros ->. cbn [length] in Hhead.
    rewrite Z.add_0_r, Z.mod_small in Hhead by lia. exact Hhead.
Qed.

(** ** The indices stay in range *)

Ltac wf_solve :=
  unfold machine_wf, ring_wf in *;
  cbn [UART_TxBuf UART_RxBuf UART_TxHead UART_TxTail UART_RxHead UART_RxTail
       UART1_TxBuf UART1_RxBuf UART1_TxHead UART1_TxTail UART1_RxHead UART1_RxTail
       vars0 vars1 on_vars0 on_vars1 on_usart0 on_usart1 set_SREG
       set_TxBuf set_RxBuf set_TxHead set_TxTail set_RxHead set_RxTail
       set_LastRxError set_received
       TxBuf RxBuf TxHead TxTail RxHead RxTail fst snd] in *;
  rewrite ?length_store;
  intuition (try lia);
  apply Z.mod_pos_bound; lia.

Lemma machine_wf_primitives (data : Z) (m : machine) :
  is_pow2 UART_TX_BUFFER_SIZE = true ->
  is_pow2 UART_RX_BUFFER_SIZE = true ->
  machine_wf m ->
  machine_wf (snd (uart0_txpush data m)) /\
  machine_wf (snd (uart0_txpop m)) /\
  machine_wf (snd (uart0_rxpush data m)) /\
  machine_wf (snd (uart0_rxpop m)).
Proof.
  intros Hpt Hpr Hwf.
  pose proof (is_pow2_range _ Hpt). pose proof (is_pow2_range _ Hpr).
  assert (Hr := Hwf). destruct Hr as ((_ & Hth & Htt) & (_ & Hrh & Hrt) & _).
  unfold uart0_txpush, uart0_txpop, uart0_rxpush, uart0_rxpop,
    UART_TX_BUFFER_MASK, UART_RX_BUFFER_MASK.
  rewrite !mask_next by (assumption || lia).
  repeat match goal with |- context [if ?c then _ else _] => destruct c end;
    wf_solve.
Qed.

Lemma machine_wf_uart_putc (data : Z) (m : machine) :
  is_pow2 UART_TX_BUFFER_SIZE = true ->
  is_pow2 UART_RX_BUFFER_SIZE = true ->
  machine_wf m -> machine_wf (uart_putc data m).
Proof.
  intros Hpt Hpr Hwf.
  destruct (machine_wf_primitives data m Hpt Hpr Hwf) as (H & _).
  unfold uart_putc. destruct (uart0_txpush data m) as [r m1]. cbn [snd] in H.
  destruct (negb _); [| exact H]. wf_solve.
Qed.

Lemma machine_wf_uart_puts (s : list Z) (m : machine) :
  is_pow2 UART_TX_BUFFER_SIZE = true ->
  is_pow2 UART_RX_BUFFER_SIZE = true ->
  machine_wf m -> machine_wf (uart_puts s m) /\ machine_wf (uart_puts_p s m).
Proof.
  intros Hpt Hpr. revert m.
  induction s as [| c s IH]; intros m Hwf; cbn [uart_puts uart_puts_p].
  - split; exact Hwf.
  - apply IH, machine_wf_uart_putc; assumption.
Qed.

Lemma machine_wf_uart1_putc (data : Z) (m m' : machine) :
  is_pow2 UART_TX_BUFFER_SIZE = true ->
  machine_wf m -> uart1_putc data m = Some m' -> machine_wf m'.
Proof.
  intros Hpt Hwf.
  pose proof (is_pow2_range _ Hpt).
  assert (Hr := Hwf). destruct Hr as (_ & _ & (_ & Hth & _) & _).
  unfold uart1_putc, UART_TX_BUFFER_MASK.
  rewrite mask_next by (assumption || lia).
  destruct (_ =? _); [discriminate |].
  intros [= <-]. wf_solve.
Qed.

Lemma machine_wf_uart1_puts (s : list Z) (m m' : machine) :
  is_pow2 UART_TX_BUFFER_SIZE = true ->
  machine_wf m ->
  (uart1_puts s m = Some m' -> machine_wf m') /\
  (uart1_puts_p s m = Some m' -> machine_wf m').
Proof.
  intros Hpt. revert m.
  induction s as [| c s IH]; intros m Hwf; cbn [uart1_puts uart1_puts_p].
  - split; intros [= <-]; exact Hwf.
  - destruct (uart1_putc c m) as [m1 |] eqn:E; [| split; discriminate].
    apply IH. eapply machine_wf_uart1_putc; eassumption.
Qed.

(** When two slots of [msg] are free at the cursor, [uart_read] stays inside
    [msg] and returns; so does [uart1_read] whenever [msg] has
    [UART_RX_BUFFER_SIZE] slots and the cursor is inside it. *)
Lemma uart_read_returns (uart : UART) (m : machine) :
  0 <= index uart ->
  index uart + 1 < Z.of_nat (length (msg uart)) ->
  exists r, uart_read uart m = Some r.
Proof.
  intros Hi Hroom. unfold uart_read.
  destruct (uart0_rxpop m) as [d m1].
  destruct (negb _); [| eexists; reflexivity].
  rewrite store_checked_in by lia.
  rewrite store_checked_in by (rewrite length_store; lia).
  eexists. reflexivity.
Qed.

Lemma uart1_read_returns (uart : UART) (m : machine) :
  Z.of_nat (length (msg uart)) = UART_RX_BUFFER_SIZE ->
  0 <= index uart < UART_RX_BUFFER_SIZE ->
  exists r, uart1_read uart m = Some r.
Proof.
  intros Hlen Hi.
  destruct (uart1_read_in_bounds uart m Hlen Hi) as (r & u & m' & E & _).
  eexists. exact E.
Qed.

(** X1. The functions of the driver keep the four circular buffers well
    formed: the storage keeps its size and the indices stay in [0, N).  For
    [uart1_putc] and the [puts] functions of channel 1 this is said of the
    calls that return, and for [uart_read] and [uart1_read] of the calls that
    stay inside [msg]: a call that writes outside [msg] is undefined and no
    statement is made about it.  [uart_read] stays inside [msg] whenever two
    slots are free at the cursor, [uart1_read] whenever [msg] has
    [UART_RX_BUFFER_SIZE] slots and the cursor is inside it. *)
Theorem machine_wf_preserved
    (data baudrate fd sb par : Z) (s msg0 : list Z) (uart : UART) (m : machine) :
  is_pow2 UART_TX_BUFFER_SIZE = true ->
  is_pow2 UART_RX_BUFFER_SIZE = true ->
  machine_wf m ->
  (machine_wf (snd (uart0_txpush data m)) /\ machine_wf (snd (uart0_txpop m)) /\
   machine_wf (snd (uart0_rxpush data m)) /\ machine_wf (snd (uart0_rxpop m))) /\
  (machine_wf (snd (uart_getc m)) /\ machine_wf (uart_putc data m) /\
   machine_wf (uart_puts s m) /\ machine_wf (uart_puts_p s m) /\
   machine_wf (uart_flush m) /\
   (forall r, uart_read uart m = Some r -> machine_wf (snd r)) /\
   (0 <= index uart -> index uart + 1 < Z.of_nat (length (msg uart)) ->
    exists r, uart_read uart m = Some r /\ machine_wf (snd r))) /\
  (machine_wf (snd (uart1_getc m)) /\
   (forall m', uart1_putc data m = Some m' -> machine_wf m') /\
   (forall m', uart1_puts s m = Some m' -> machine_wf m') /\
   (forall m', uart1_puts_p s m = Some m' -> machine_wf m') /\
   machine_wf (uart1_flush m) /\
   (forall r, uart1_read uart m = Some r -> machine_wf (snd r)) /\
   (Z.of_nat (length (msg uart)) = UART_RX_BUFFER_SIZE ->
    0 <= index uart < UART_RX_BUFFER_SIZE ->
    exists r, uart1_read uart m = Some r /\ machine_wf (snd r))) /\
  (machine_wf (ISR_UART0_RECEIVE m) /\ machine_wf (ISR_UART0_TRANSMIT m) /\
   machine_wf (SIGNAL_UART1_RECEIVE m) /\ machine_wf (SIGNAL_UART1_TRANSMIT m)) /\
  (machine_wf (snd (UARTenable baudrate fd sb par msg0 m)) /\
   machine_wf (snd (UART1enable baudrate fd sb par msg0 m))).
Proof.
  intros Hpt Hpr Hwf.
  pose proof (is_pow2_range _ Hpt) as Hrt. pose proof (is_pow2_range _ Hpr) as Hrr.
  pose proof (machine_wf_primitives data m Hpt Hpr Hwf) as Hprim.
  pose proof (fun d => machine_wf_primitives d m Hpt Hpr Hwf) as Hprim'.
  assert (Hr := Hwf).
  destruct Hr as ((_ & Hth0 & Htt0) & (_ & Hrh0 & Hrt0) & (_ & Hth1 & Htt1) & (_ & Hrh1 & Hrt1)).
  split; [exact Hprim |].
  split.
  { split.
    { unfold uart_getc, UART_RX_BUFFER_MASK. rewrite mask_next by (assumption || lia).
      destruct (negb _); wf_solve. }
    split; [apply machine_wf_uart_putc; assumption |].
    split; [apply machine_wf_uart_puts; assumption |].
    split; [apply machine_wf_uart_puts; assumption |].
    split; [unfold uart_flush; wf_solve |].
    assert (Hread : forall r, uart_read uart m = Some r -> machine_wf (snd r)).
    { intros r. unfold uart_read.
      destruct (uart0_rxpop m) as [d m1] eqn:E.
      assert (Hm1 : machine_wf m1)
        by (destruct Hprim as (_ & _ & _ & H); rewrite ?E in H; exact H).
      destruct (negb _); [| intros [= <-]; exact Hm1].
      destruct (store_checked _ _ _); [| discriminate].
      destruct (store_checked _ _ _); [| discriminate].
      intros [= <-]. exact Hm1. }
    split; [exact Hread |].
    intros Hi Hroom. destruct (uart_read_returns uart m Hi Hroom) as [r E].
    exists r. split; [exact E | apply Hread; exact E]. }
  split.
  { split.
    { unfold uart1_getc, UART_RX_BUFFER_MASK. rewrite mask_next by (assumption || lia).
      destruct (_ =? _); wf_solve. }
    split; [intros m'; apply machine_wf_uart1_putc; assumption |].
    split; [intros m'; apply machine_wf_uart1_puts; assumption |].
    split; [intros m'; apply machine_wf_uart1_puts; assumption |].
    split; [unfold uart1_flush; wf_solve |].
    assert (Hread : forall r, uart1_read uart m = Some r -> machine_wf (snd r)).
    { intros r. unfold uart1_read, UART_RX_BUFFER_MASK.
      rewrite mask_next by (assumption || lia).
      destruct (_ && _).
      - destruct (store_checked _ _ _); [| discriminate].
        destruct (store_checked _ _ _); [| discriminate].
        intros [= <-]. wf_solve.
      - intros [= <-]. exact Hwf. }
    split; [exact Hread |].
    intros Hlen Hi. destruct (uart1_read_returns uart m Hlen Hi) as [r E].
    exists r. split; [exact E | apply Hread; exact E]. }
  split.
  { split.
    { unfold ISR_UART0_RECEIVE. destruct (negb _); apply Hprim'. }
    split.
    { unfold ISR_UART0_TRANSMIT. destruct (uart0_txpop m) as [d m1] eqn:E.
      assert (Hm1 : machine_wf m1)
        by (destruct Hprim as (_ & H & _); rewrite ?E in H; exact H).
      destruct (negb _); wf_solve. }
    split.
    { unfold SIGNAL_UART1_RECEIVE, UART_RX_BUFFER_MASK.
      rewrite mask_next by (assumption || lia).
      destruct (_ =? _); [wf_solve |]. destruct (negb _); wf_solve. }
    unfold SIGNAL_UART1_TRANSMIT, UART_TX_BUFFER_MASK.
    rewrite mask_next by (assumption || lia).
    destruct (negb _); wf_solve. }
  split.
  - unfold machine_wf, UART_TxBuf, UART_RxBuf, UART_TxHead, UART_TxTail, UART_RxHead,
      UART_RxTail, UART1_TxBuf, UART1_RxBuf, UART1_TxHead, UART1_TxTail, UART1_RxHead,
      UART1_RxTail.
    rewrite UARTenable_vars0.
    unfold UARTenable. destruct (usart_setup _ _ _ _ _) as (r & ((f & s0) & p)).
    wf_solve.
  - unfold machine_wf, UART_TxBuf, UART_RxBuf, UART_TxHead, UART_TxTail, UART_RxHead,
      UART_RxTail, UART1_TxBuf, UART1_RxBuf, UART1_TxHead, UART1_TxTail, UART1_RxHead,
      UART1_RxTail.
    rewrite UART1enable_vars1.
    unfold UART1enable. destruct (usart_setup _ _ _ _ _) as (r & ((f & s0) & p)).
    wf_solve.
Qed.

(** ** Channel 0 transmits in order *)

Lemma uart_putc_queue (b : Z) (q : list Z) (m : machine) :
  is_pow2 UART_TX_BUFFER_SIZE = true ->
  tx0_queue m q ->
  Z.of_nat (length q) + 1 < UART_TX_BUFFER_SIZE ->
  tx0_queue (uart_putc b m) (q ++ [b]) /\
  UDR_tx (usart0 (uart_putc b m)) = UDR_tx (usart0 m) /\
  Z.testbit (UART0_CONTROL (uart_putc b m)) UDRIE = true.
Proof.
  intros Hp Hq Hroom.
  destruct (ring_queue_push _ _ _ _ b _ Hq Hroom) as (Hne & Hq').
  assert (Hh : 0 <= UART_TxHead m) by (destruct Hq as ((_ & Hh & _) & _); lia).
  rewrite uart_putc_room by assumption.
  split; [exact Hq' |]. split; [reflexivity |].
  cbn [UART0_CONTROL usart0 on_usart0 on_vars0 set_CONTROL CONTROL]. unfold _BV.
  rewrite reg_set_testbit by (unfold UDRIE; lia).
  rewrite Z.eqb_refl. apply orb_true_r.
Qed.

Lemma uart_puts_queue (s q : list Z) (m : machine) :
  is_pow2 UART_TX_BUFFER_SIZE = true ->
  tx0_queue m q ->
  Z.of_nat (length q) + Z.of_nat (length s) < UART_TX_BUFFER_SIZE ->
  tx0_queue (uart_puts s m) (q ++ s) /\
  UDR_tx (usart0 (uart_puts s m)) = UDR_tx (usart0 m).
Proof.
  intros Hp. revert q m.
  induction s as [| c s IH]; intros q m Hq Hroom; cbn [uart_puts].
  - rewrite app_nil_r. split; [exact Hq | reflexivity].
  - cbn [length] in Hroom. rewrite Nat2Z.inj_succ in Hroom.
    destruct (uart_putc_queue c q m Hp Hq) as (Hq1 & Hout & _); [lia |].
    destruct (IH (q ++ [c]) (uart_putc c m) Hq1) as (Hq2 & Hout2).
    { rewrite length_app, Nat2Z.inj_add. cbn [length]. lia. }
    rewrite <- app_assoc in Hq2. split; [exact Hq2 | congruence].
Qed.

Lemma ISR_UART0_TRANSMIT_queue (b : Z) (q : list Z) (m : machine) :
  is_pow2 UART_TX_BUFFER_SIZE = true ->
  tx0_queue m (b :: q) ->
  b <> 0 ->
  tx0_queue (ISR_UART0_TRANSMIT m) q /\
  UDR_tx (usart0 (ISR_UART0_TRANSMIT m)) = UDR_tx (usart0 m) ++ [b].
Proof.
  intros Hp Hq Hb.
  destruct (ring_queue_pop _ _ _ _ _ _ Hq) as (Hne & Hload & Hq').
  assert (Ht : 0 <= UART_TxTail m) by (destruct Hq as ((_ & _ & Ht) & _); lia).
  rewrite ISR_UART0_TRANSMIT_sends by (assumption || congruence).
  split; [exact Hq' |].
  cbn [usart0 on_usart0 on_vars0 write_UDR UDR_tx]. rewrite Hload. reflexivity.
Qed.

Lemma fire_ISR_UART0_TRANSMIT_queue (q : list Z) (m : machine) :
  is_pow2 UART_TX_BUFFER_SIZE = true ->
  tx0_queue m q ->
  Forall (fun b => b <> 0) q ->
  tx0_queue (fire ISR_UART0_TRANSMIT (length q) m) [] /\
  UDR_tx (usart0 (fire ISR_UART0_TRANSMIT (length q) m)) = UDR_tx (usart0 m) ++ q.
Proof.
  intros Hp. revert m.
  induction q as [| b q IH]; intros m Hq Hnz; cbn [length fire].
  - rewrite app_nil_r. split; [exact Hq | reflexivity].
  - apply Forall_cons in Hnz. destruct Hnz as [Hb Hnz].
    destruct (ISR_UART0_TRANSMIT_queue b q m Hp Hq Hb) as (Hq1 & Hout).
    destruct (IH _ Hq1 Hnz) as (Hq2 & Hout2).
    split; [exact Hq2 |]. rewrite Hout2, Hout, <- app_assoc. reflexivity.
Qed.

(** X2. Channel 0 transmits in order.  When the transmit buffer holds the
    non-null bytes [q] and [uart_puts] adds a string [s] that still fits
    (fewer than N bytes in all), as many firings of the transmit handler as
    there are bytes write exactly [q] then [s] to the data register and leave
    the buffer empty; the firing after that writes nothing and clears the
    transmit-ready interrupt enable bit. *)
Theorem uart_puts_then_drain (s q : list Z) (m : machine) :
  is_pow2 UART_TX_BUFFER_SIZE = true ->
  tx0_queue m q ->
  Forall (fun b => b <> 0) q ->
  Forall (fun b => b <> 0) s ->
  Z.of_nat (length q) + Z.of_nat (length s) < UART_TX_BUFFER_SIZE ->
  let m1 := fire ISR_UART0_TRANSMIT (length q + length s) (uart_puts s m) in
  UDR_tx (usart0 m1) = UDR_tx (usart0 m) ++ q ++ s /\
  UART_TxHead m1 = UART_TxTail m1 /\
  UDR_tx (usart0 (ISR_UART0_TRANSMIT m1)) = UDR_tx (usart0 m1) /\
  Z.testbit (UART0_CONTROL (ISR_UART0_TRANSMIT m1)) UDRIE = false.
Proof.
  intros Hp Hq Hnq Hns Hroom m1.
  destruct (uart_puts_queue s q m Hp Hq Hroom) as (Hq1 & Hout1).
  assert (Hnz : Forall (fun b => b <> 0) (q ++ s)) by (apply Forall_app; split; assumption).
  destruct (fire_ISR_UART0_TRANSMIT_queue _ _ Hp Hq1 Hnz) as (Hq2 & Hout2).
  rewrite length_app in Hq2, Hout2. fold m1 in Hq2, Hout2.
  assert (He : UART_TxHead m1 = UART_TxTail m1)
    by (apply (ring_queue_empty _ _ _ _ _ Hq2); reflexivity).
  split; [rewrite Hout2, Hout1; reflexivity |].
  split; [exact He |].
  rewrite ISR_UART0_TRANSMIT_idle by exact He.
  split; [reflexivity |].
  cbn [UART0_CONTROL usart0 on_usart0 set_CONTROL CONTROL]. unfold _BV.
  rewrite reg_clear_testbit by (unfold UDRIE; lia).
  rewrite Z.eqb_refl. apply andb_false_r.
Qed.

(** ** Channel 0 receives in order *)

Lemma ISR_UART0_RECEIVE_queue (status b : Z) (q : list Z) (m : machine) :
  is_pow2 UART_RX_BUFFER_SIZE = true ->
  rx0_queue m q ->
  Z.of_nat (length q) + 1 < UART_RX_BUFFER_SIZE ->
  rx0_queue (ISR_UART0_RECEIVE (on_usart0 (receive status b) m))
            (q ++ [rx_byte status b]).
Proof.
  intros Hp Hq Hroom.
  destruct (ring_queue_push _ _ _ _ (rx_byte status b) _ Hq Hroom) as (Hne & Hq').
  assert (Hh : 0 <= UART_RxHead m) by (destruct Hq as ((_ & Hh & _) & _); lia).
  unfold ISR_UART0_RECEIVE, rx_byte in *.
  cbn [UART0_STATUS UART0_DATA usart0 on_usart0 receive STATUS UDR_rx].
  destruct (_ =? 0); cbn [negb]; rewrite uart0_rxpush_room by assumption; exact Hq'.
Qed.

Lemma deliver_queue (status : Z) (bs q : list Z) (m : machine) :
  is_pow2 UART_RX_BUFFER_SIZE = true ->
  rx0_queue m q ->
  Z.of_nat (length q) + Z.of_nat (length bs) < UART_RX_BUFFER_SIZE ->
  rx0_queue (deliver status bs m) (q ++ map (rx_byte status) bs).
Proof.
  intros Hp. revert q m.
  induction bs as [| b bs IH]; intros q m Hq Hroom; cbn [deliver map].
  - rewrite app_nil_r. exact Hq.
  - cbn [length] in Hroom. rewrite Nat2Z.inj_succ in Hroom.
    replace (q ++ rx_byte status b :: map (rx_byte status) bs)
      with ((q ++ [rx_byte status b]) ++ map (rx_byte status) bs)
      by (rewrite <- app_assoc; reflexivity).
    apply IH.
    + apply ISR_UART0_RECEIVE_queue; [assumption | assumption | lia].
    + rewrite length_app, Nat2Z.inj_add. cbn [length]. lia.
Qed.

Lemma uart0_rxpop_queue (b : Z) (q : list Z) (m : machine) :
  is_pow2 UART_RX_BUFFER_SIZE = true ->
  rx0_queue m (b :: q) ->
  fst (uart0_rxpop m) = b /\ rx0_queue (snd (uart0_rxpop m)) q.
Proof.
  intros Hp Hq.
  destruct (ring_queue_pop _ _ _ _ _ _ Hq) as (Hne & Hload & Hq').
  assert (Ht : 0 <= UART_RxTail m) by (destruct Hq as ((_ & _ & Ht) & _); lia).
  rewrite uart0_rxpop_nonempty by assumption.
  split; [exact Hload | exact Hq'].
Qed.

Lemma uart0_rxpop_n_queue (q : list Z) (m : machine) :
  is_pow2 UART_RX_BUFFER_SIZE = true ->
  rx0_queue m q ->
  fst (uart0_rxpop_n (length q) m) = q /\
  rx0_queue (snd (uart0_rxpop_n (length q) m)) [].
Proof.
  intros Hp. revert m.
  induction q as [| b q IH]; intros m Hq; cbn [length uart0_rxpop_n].
  - split; [reflexivity | exact Hq].
  - destruct (uart0_rxpop_queue b q m Hp Hq) as (Hb & Hq1).
    destruct (uart0_rxpop m) as [b' m1]. cbn [fst snd] in Hb, Hq1. subst b'.
    destruct (IH m1 Hq1) as (Hbs & Hq2).
    destruct (uart0_rxpop_n (length q) m1) as [bs m2]. cbn [fst snd] in *.
    split; [congruence | exact Hq2].
Qed.

(** X3. Channel 0 receives in order.  When the receive buffer holds the bytes
    [q] and the bytes [bs] arrive, all with the same status flags, and fit
    (fewer than N bytes in all), successive calls of [uart0_rxpop] return [q]
    and then, for each byte of [bs], the byte itself if its status was clean
    and ['X'] otherwise; the buffer is then empty and a further call
    returns 0. *)
Theorem deliver_then_rxpop (status : Z) (bs q : list Z) (m : machine) :
  is_pow2 UART_RX_BUFFER_SIZE = true ->
  rx0_queue m q ->
  Z.of_nat (length q) + Z.of_nat (length bs) < UART_RX_BUFFER_SIZE ->
  let r := uart0_rxpop_n (length q + length bs) (deliver status bs m) in
  fst r = q ++ map (rx_byte status) bs /\
  UART_RxHead (snd r) = UART_RxTail (snd r) /\
  uart0_rxpop (snd r) = (0, snd r).
Proof.
  intros Hp Hq Hroom r.
  pose proof (deliver_queue status bs q m Hp Hq Hroom) as Hq1.
  destruct (uart0_rxpop_n_queue _ _ Hp Hq1) as (Hbs & Hq2).
  rewrite length_app, length_map in Hbs, Hq2. fold r in Hbs, Hq2.
  assert (He : UART_RxHead (snd r) = UART_RxTail (snd r))
    by (apply (ring_queue_empty _ _ _ _ _ Hq2); reflexivity).
  split; [exact Hbs |]. split; [exact He |].
  apply uart0_rxpop_empty. exact He.
Qed.

(** ** What [uart_getc] delivers *)

(** X4. [uart_getc] compares the index after [tail] with [head].  With two or
    more bytes queued it returns the oldest one under the latch and removes
    it; with exactly one byte queued it returns [UART_NO_DATA] and changes
    nothing, so the last byte stays in the buffer until another one arrives;
    on an empty buffer of at least two slots it returns the stale byte at
    [tail] and advances [tail], after which the buffer counts as full. *)
Theorem uart_getc_queue (b b' : Z) (q : list Z) (m : machine) :
  is_pow2 UART_RX_BUFFER_SIZE = true ->
  (rx0_queue m (b :: b' :: q) ->
   fst (uart_getc m) = u16 (Z.shiftl (UART_LastRxError m) 8 + b) /\
   rx0_queue (snd (uart_getc m)) (b' :: q)) /\
  (rx0_queue m [b] -> uart_getc m = (UART_NO_DATA, m)) /\
  (rx0_queue m [] -> 2 <= UART_RX_BUFFER_SIZE ->
   fst (uart_getc m) =
     u16 (Z.shiftl (UART_LastRxError m) 8 + load (UART_RxBuf m) (UART_RxTail m)) /\
   UART_RxTail (snd (uart_getc m)) = (UART_RxTail m + 1) mod UART_RX_BUFFER_SIZE /\
   (UART_RxHead (snd (uart_getc m)) + 1) mod UART_RX_BUFFER_SIZE =
     UART_RxTail (snd (uart_getc m))).
Proof.
  intros Hp.
  split; [| split].
  - intros Hq.
    assert (Ht : 0 <= UART_RxTail m) by (destruct Hq as ((_ & _ & Ht) & _); lia).
    destruct (ring_queue_pop _ _ _ _ _ _ Hq) as (_ & Hload & Hq1).
    destruct (ring_queue_pop _ _ _ _ _ _ Hq1) as (Hne & _).
    unfold uart_getc, UART_RX_BUFFER_MASK. rewrite mask_next by assumption.
    destruct (Z.eqb_spec ((UART_RxTail m + 1) mod UART_RX_BUFFER_SIZE) (UART_RxHead m));
      [congruence |].
    cbn [negb fst snd]. rewrite Hload. split; [reflexivity | exact Hq1].
  - intros Hq.
    assert (Ht : 0 <= UART_RxTail m) by (destruct Hq as ((_ & _ & Ht) & _); lia).
    destruct Hq as (_ & _ & Hhead & _). cbn [length] in Hhead.
    unfold uart_getc, UART_RX_BUFFER_MASK. rewrite mask_next by assumption.
    change (Z.of_nat 1) with 1 in Hhead. rewrite <- Hhead, Z.eqb_refl. reflexivity.
  - intros Hq Hsz.
    assert (He : UART_RxHead m = UART_RxTail m)
      by (apply (ring_queue_empty _ _ _ _ _ Hq); reflexivity).
    destruct Hq as ((_ & _ & Ht) & _).
    unfold uart_getc, UART_RX_BUFFER_MASK. rewrite mask_next by (assumption || lia).
    destruct (Z.eqb_spec ((UART_RxTail m + 1) mod UART_RX_BUFFER_SIZE) (UART_RxHead m))
      as [E | _].
    + exfalso. rewrite He in E. revert E. apply next_ne; assumption.
    + cbn [negb fst snd]. split; [reflexivity |]. split; [reflexivity |].
      cbn [UART_RxHead UART_RxTail vars0 on_vars0 set_RxTail RxHead RxTail].
      fold (UART_RxHead m) (UART_RxTail m). rewrite He. reflexivity.
Qed.

(** ** Channel 1 transmits in order, or waits *)

Lemma uart1_putc_queue (b : Z) (q : list Z) (m : machine) :
  is_pow2 UART_TX_BUFFER_SIZE = true ->
  tx1_queue m q ->
  Z.of_nat (length q) + 1 < UART_TX_BUFFER_SIZE ->
  exists m',
    uart1_putc b m = Some m' /\
    tx1_queue m' (q ++ [b]) /\
    UDR_tx (usart1 m') = UDR_tx (usart1 m) /\
    Z.testbit (UART1_CONTROL m') UDRIE = true.
Proof.
  intros Hp Hq Hroom.
  destruct (ring_queue1_push _ _ _ _ b _ Hq Hroom) as (Hne & Hq').
  assert (Hh : 0 <= UART1_TxHead m) by (destruct Hq as ((_ & Hh & _) & _); lia).
  unfold uart1_putc, UART_TX_BUFFER_MASK. rewrite mask_next by assumption.
  destruct (Z.eqb_spec ((UART1_TxHead m + 1) mod UART_TX_BUFFER_SIZE) (UART1_TxTail m));
    [congruence |].
  eexists. split; [reflexivity |]. split; [exact Hq' |]. split; [reflexivity |].
  cbn [UART1_CONTROL usart1 on_usart1 on_vars1 set_CONTROL CONTROL]. unfold _BV.
  rewrite reg_set_testbit by (unfold UDRIE; lia).
  rewrite Z.eqb_refl. apply orb_true_r.
Qed.

Lemma uart1_putc_full (b : Z) (q : list Z) (m : machine) :
  is_pow2 UART_TX_BUFFER_SIZE = true ->
  tx1_queue m q ->
  Z.of_nat (length q) + 1 = UART_TX_BUFFER_SIZE ->
  uart1_putc b m = None.
Proof.
  intros Hp ((_ & Hh & Ht) & _ & Hhead & _) Hfull.
  unfold uart1_putc, UART_TX_BUFFER_MASK. rewrite mask_next by (assumption || lia).
  replace ((UART1_TxHead m + 1) mod UART_TX_BUFFER_SIZE) with (UART1_TxTail m);
    [rewrite Z.eqb_refl; reflexivity |].
  rewrite Hhead, Zplus_mod_idemp_l.
  replace (UART1_TxTail m + Z.of_nat (length q) + 1)
    with (UART1_TxTail m + 1 * UART_TX_BUFFER_SIZE) by lia.
  rewrite Z.mod_add, Z.mod_small by lia. reflexivity.
Qed.

Lemma SIGNAL_UART1_TRANSMIT_queue (b : Z) (q : list Z) (m : machine) :
  is_pow2 UART_TX_BUFFER_SIZE = true ->
  tx1_queue m (b :: q) ->
  tx1_queue (SIGNAL_UART1_TRANSMIT m) q /\
  UDR_tx (usart1 (SIGNAL_UART1_TRANSMIT m)) = UDR_tx (usart1 m) ++ [b].
Proof.
  intros Hp Hq.
  destruct (ring_queue1_pop _ _ _ _ _ _ Hq) as (Hne & Hload & Hq').
  assert (Ht : 0 <= UART1_TxTail m) by (destruct Hq as ((_ & _ & Ht) & _); lia).
  unfold SIGNAL_UART1_TRANSMIT, UART_TX_BUFFER_MASK. rewrite mask_next by assumption.
  destruct (Z.eqb_spec (UART1_TxHead m) (UART1_TxTail m)); [congruence |].
  cbn [negb]. split; [exact Hq' |].
  cbn [usart1 on_usart1 on_vars1 write_UDR UDR_tx UART1_TxBuf vars1 set_TxTail TxBuf].
  fold (UART1_TxBuf m). rewrite Hload. reflexivity.
Qed.

Lemma uart1_puts_queue (s q : list Z) (m : machine) :
  is_pow2 UART_TX_BUFFER_SIZE = true ->
  tx1_queue m q ->
  Z.of_nat (length q) + Z.of_nat (length s) < UART_TX_BUFFER_SIZE ->
  exists m',
    uart1_puts s m = Some m' /\
    tx1_queue m' (q ++ s) /\
    UDR_tx (usart1 m') = UDR_tx (usart1 m).
Proof.
  intros Hp. revert q m.
  induction s as [| c s IH]; intros q m Hq Hroom; cbn [uart1_puts].
  - exists m. rewrite app_nil_r. split; [reflexivity |]. split; [exact Hq | reflexivity].
  - cbn [length] in Hroom. rewrite Nat2Z.inj_succ in Hroom.
    destruct (uart1_putc_queue c q m Hp Hq) as (m1 & E & Hq1 & Hout & _); [lia |].
    rewrite E.
    destruct (IH (q ++ [c]) m1 Hq1) as (m2 & E2 & Hq2 & Hout2).
    { rewrite length_app, Nat2Z.inj_add. cbn [length]. lia. }
    exists m2. rewrite <- app_assoc in Hq2.
    split; [exact E2 |]. split; [exact Hq2 | congruence].
Qed.

Lemma fire_SIGNAL_UART1_TRANSMIT_queue (q : list Z) (m : machine) :
  is_pow2 UART_TX_BUFFER_SIZE = true ->
  tx1_queue m q ->
  tx1_queue (fire SIGNAL_UART1_TRANSMIT (length q) m) [] /\
  UDR_tx (usart1 (fire SIGNAL_UART1_TRANSMIT (length q) m)) = UDR_tx (usart1 m) ++ q.
Proof.
  intros Hp. revert m.
  induction q as [| b q IH]; intros m Hq; cbn [length fire].
  - rewrite app_nil_r. split; [exact Hq | reflexivity].
  - destruct (SIGNAL_UART1_TRANSMIT_queue b q m Hp Hq) as (Hq1 & Hout).
    destruct (IH _ Hq1) as (Hq2 & Hout2).
    split; [exact Hq2 |]. rewrite Hout2, Hout, <- app_assoc. reflexivity.
Qed.

(** X5. Channel 1 transmits in order.  When the transmit buffer holds the
    bytes [q] (null bytes included) and the string [s] still fits (fewer than
    N bytes in all), [uart1_puts] returns without waiting, and as many firings
    of the transmit handler as there are bytes write exactly [q] then [s] to
    the data register and leave the buffer empty; the firing after that
    writes nothing and clears the transmit-ready interrupt enable bit. *)
Theorem uart1_puts_then_drain (s q : list Z) (m : machine) :
  is_pow2 UART_TX_BUFFER_SIZE = true ->
  tx1_queue m q ->
  Forall (fun b => b <> 0) s ->
  Z.of_nat (length q) + Z.of_nat (length s) < UART_TX_BUFFER_SIZE ->
  exists m',
    uart1_puts s m = Some m' /\
    let m1 := fire SIGNAL_UART1_TRANSMIT (length q + length s) m' in
    UDR_tx (usart1 m1) = UDR_tx (usart1 m) ++ q ++ s /\
    UART1_TxHead m1 = UART1_TxTail m1 /\
    UDR_tx (usart1 (SIGNAL_UART1_TRANSMIT m1)) = UDR_tx (usart1 m1) /\
    Z.testbit (UART1_CONTROL (SIGNAL_UART1_TRANSMIT m1)) UDRIE = false.
Proof.
  intros Hp Hq _ Hroom.
  destruct (uart1_puts_queue s q m Hp Hq Hroom) as (m' & E & Hq1 & Hout1).
  exists m'. split; [exact E |]. intros m1.
  destruct (fire_SIGNAL_UART1_TRANSMIT_queue _ _ Hp Hq1) as (Hq2 & Hout2).
  rewrite length_app in Hq2, Hout2. fold m1 in Hq2, Hout2.
  assert (He : UART1_TxHead m1 = UART1_TxTail m1)
    by (apply (ring_queue1_empty _ _ _ _ _ Hq2); reflexivity).
  split; [rewrite Hout2, Hout1; reflexivity |].
  split; [exact He |].
  unfold SIGNAL_UART1_TRANSMIT. rewrite He, Z.eqb_refl. cbn [negb].
  split; [reflexivity |].
  cbn [UART1_CONTROL usart1 on_usart1 set_CONTROL CONTROL]. unfold _BV.
  rewrite reg_clear_testbit by (unfold UDRIE; lia).
  rewrite Z.eqb_refl. apply andb_false_r.
Qed.

(** X6. [uart1_putc] waits when the transmit buffer is full; hence
    [uart1_puts] with a string that does not fit beside the bytes already
    queued does not return as long as the transmit handler does not run. *)
Theorem uart1_puts_waits (s q : list Z) (m : machine) :
  is_pow2 UART_TX_BUFFER_SIZE = true ->
  tx1_queue m q ->
  Forall (fun b => b <> 0) s ->
  UART_TX_BUFFER_SIZE <= Z.of_nat (length q) + Z.of_nat (length s) ->
  uart1_puts s m = None.
Proof.
  intros Hp. revert q m.
  induction s as [| c s IH]; intros q m Hq Hnz Hbig.
  - exfalso. destruct Hq as (_ & Hlt & _). cbn [length] in Hbig. lia.
  - apply Forall_cons in Hnz. destruct Hnz as [_ Hnz].
    cbn [uart1_puts length] in *. rewrite Nat2Z.inj_succ in Hbig.
    assert (Hlt : Z.of_nat (length q) < UART_TX_BUFFER_SIZE) by apply Hq.
    destruct (Z.eq_dec (Z.of_nat (length q) + 1) UART_TX_BUFFER_SIZE) as [Hfull | Hnf].
    + rewrite (uart1_putc_full c q m Hp Hq Hfull). reflexivity.
    + destruct (uart1_putc_queue c q m Hp Hq) as (m1 & E & Hq1 & _); [lia |].
      rewrite E. apply (IH (q ++ [c])); [exact Hq1 | exact Hnz |].
      rewrite length_app, Nat2Z.inj_add. cbn [length]. lia.
Qed.

(** ** Variables that are never written *)

Lemma frozen_refl (m : machine) : frozen m m.
Proof. split; reflexivity. Qed.

Lemma frozen_trans (m1 m2 m3 : machine) : frozen m1 m2 -> frozen m2 m3 -> frozen m1 m3.
Proof. intros [A B] [C D]. split; congruence. Qed.

Lemma frozen_uart_putc (data : Z) (m : machine) : frozen m (uart_putc data m).
Proof.
  unfold uart_putc, uart0_txpush.
  destruct (negb (UART_TxTail m =? _)); cbn [negb Z.eqb]; split; reflexivity.
Qed.

Lemma frozen_uart_puts (s : list Z) (m : machine) :
  frozen m (uart_puts s m) /\ frozen m (uart_puts_p s m).
Proof.
  revert m. induction s as [| c s IH]; intros m; cbn [uart_puts uart_puts_p].
  - split; apply frozen_refl.
  - split; (eapply frozen_trans; [apply frozen_uart_putc | apply IH]).
Qed.

Lemma frozen_uart1_putc (data : Z) (m m' : machine) :
  uart1_putc data m = Some m' -> frozen m m'.
Proof.
  unfold uart1_putc. destruct (_ =? _); [discriminate |].
  intros [= <-]. split; reflexivity.
Qed.

Lemma frozen_uart1_puts (s : list Z) (m m' : machine) :
  (uart1_puts s m = Some m' -> frozen m m') /\
  (uart1_puts_p s m = Some m' -> frozen m m').
Proof.
  revert m. induction s as [| c s IH]; intros m; cbn [uart1_puts uart1_puts_p].
  - split; intros [= <-]; apply frozen_refl.
  - destruct (uart1_putc c m) as [m1 |] eqn:E; [| split; discriminate].
    apply frozen_uart1_putc in E.
    split; intros H; (eapply frozen_trans; [exact E | apply IH; exact H]).
Qed.

(** X7. No function of the driver assigns [UART1_RxBuf], the receive storage
    of channel 1, or [UART_LastRxError], the error latch of channel 0: both
    keep the value they had.  For [uart1_putc] and the [puts] functions of
    channel 1 this is said of the calls that return, and for [uart_read] and
    [uart1_read] of the calls that stay inside [msg]: a call that writes
    outside [msg] is undefined and no statement is made about it.
    [uart_read] stays inside [msg] whenever two slots are free at the cursor,
    [uart1_read] whenever [msg] has [UART_RX_BUFFER_SIZE] slots and the cursor
    is inside it. *)
Theorem never_written
    (data baudrate fd sb par : Z) (s msg0 : list Z) (uart : UART) (m : machine) :
  (frozen m (snd (uart0_txpush data m)) /\ frozen m (snd (uart0_txpop m)) /\
   frozen m (snd (uart0_rxpush data m)) /\ frozen m (snd (uart0_rxpop m))) /\
  (frozen m (snd (uart_getc m)) /\ frozen m (uart_putc data m) /\
   frozen m (uart_puts s m) /\ frozen m (uart_puts_p s m) /\
   frozen m (uart_flush m) /\
   (forall r, uart_read uart m = Some r -> frozen m (snd r)) /\
   (0 <= index uart -> index uart + 1 < Z.of_nat (length (msg uart)) ->
    exists r, uart_read uart m = Some r /\ frozen m (snd r))) /\
  (frozen m (snd (uart1_getc m)) /\
   (forall m', uart1_putc data m = Some m' -> frozen m m') /\
   (forall m', uart1_puts s m = Some m' -> frozen m m') /\
   (forall m', uart1_puts_p s m = Some m' -> frozen m m') /\
   frozen m (uart1_flush m) /\
   (forall r, uart1_read uart m = Some r -> frozen m (snd r)) /\
   (Z.of_nat (length (msg uart)) = UART_RX_BUFFER_SIZE ->
    0 <= index uart < UART_RX_BUFFER_SIZE ->
    exists r, uart1_read uart m = Some r /\ frozen m (snd r))) /\
  (frozen m (ISR_UART0_RECEIVE m) /\ frozen m (ISR_UART0_TRANSMIT m) /\
   frozen m (SIGNAL_UART1_RECEIVE m) /\ frozen m (SIGNAL_UART1_TRANSMIT m)) /\
  (frozen m (snd (UARTenable baudrate fd sb par msg0 m)) /\
   frozen m (snd (UART1enable baudrate fd sb par msg0 m))).
Proof.
  assert (Hprim : forall d,
    frozen m (snd (uart0_txpush d m)) /\ frozen m (snd (uart0_txpop m)) /\
    frozen m (snd (uart0_rxpush d m)) /\ frozen m (snd (uart0_rxpop m))).
  { intros d. unfold uart0_txpush, uart0_txpop, uart0_rxpush, uart0_rxpop.
    repeat match goal with |- context [if ?c then _ else _] => destruct c end;
      repeat split. }
  split; [apply Hprim |].
  split.
  { split; [unfold uart_getc; destruct (negb _); split; reflexivity |].
    split; [apply frozen_uart_putc |].
    split; [apply frozen_uart_puts |].
    split; [apply frozen_uart_puts |].
    split; [split; reflexivity |].
    assert (Hread : forall r, uart_read uart m = Some r -> frozen m (snd r)).
    { intros r. unfold uart_read.
      destruct (Hprim 0) as (_ & _ & _ & H).
      destruct (uart0_rxpop m) as [d m1]. cbn [snd] in H.
      destruct (negb _); [| intros [= <-]; exact H].
      destruct (store_checked _ _ _); [| discriminate].
      destruct (store_checked _ _ _); [| discriminate].
      intros [= <-]. exact H. }
    split; [exact Hread |].
    intros Hi Hroom. destruct (uart_read_returns uart m Hi Hroom) as [r E].
    exists r. split; [exact E | apply Hread; exact E]. }
  split.
  { split; [unfold uart1_getc; destruct (_ =? _); split; reflexivity |].
    split; [intros m'; apply frozen_uart1_putc |].
    split; [intros m'; apply frozen_uart1_puts |].
    split; [intros m'; apply frozen_uart1_puts |].
    split; [split; reflexivity |].
    assert (Hread : forall r, uart1_read uart m = Some r -> frozen m (snd r)).
    { intros r. unfold uart1_read.
      destruct (_ && _).
      - destruct (store_checked _ _ _); [| discriminate].
        destruct (store_checked _ _ _); [| discriminate].
        intros [= <-]. split; reflexivity.
      - intros [= <-]. apply frozen_refl. }
    split; [exact Hread |].
    intros Hlen Hi. destruct (uart1_read_returns uart m Hlen Hi) as [r E].
    exists r. split; [exact E | apply Hread; exact E]. }
  split.
  { split; [unfold ISR_UART0_RECEIVE; destruct (negb _); apply Hprim |].
    split.
    { unfold ISR_UART0_TRANSMIT. destruct (Hprim 0) as (_ & H & _).
      destruct (uart0_txpop m) as [d m1]. cbn [snd] in H.
      destruct (negb _); exact H. }
    split.
    { unfold SIGNAL_UART1_RECEIVE. destruct (_ =? UART1_RxTail m); [split; reflexivity |].
      destruct (negb _); split; reflexivity. }
    unfold SIGNAL_UART1_TRANSMIT. destruct (negb _); split; reflexivity. }
  split.
  - unfold UARTenable. destruct (usart_setup _ _ _ _ _) as (r & ((f & s0) & p)).
    split; reflexivity.
  - unfold UART1enable. destruct (usart_setup _ _ _ _ _) as (r & ((f & s0) & p)).
    split; reflexivity.
Qed.

(** ** Channel 1 does not deliver what it receives *)

(** X8. When a byte arrives on channel 1 and its buffer has room, the handler
    stores the byte (or ['X']) in the storage of channel 0 at the new head
    index of channel 1; the next [uart1_getc] returns under the new latch the
    byte that [UART1_RxBuf] already held one slot after [tail], whatever byte
    arrived. *)
Theorem uart1_receive_then_getc (m : machine) :
  is_pow2 UART_RX_BUFFER_SIZE = true ->
  ring_wf UART_RX_BUFFER_SIZE (UART1_RxBuf m) (UART1_RxHead m) (UART1_RxTail m) ->
  Z.of_nat (length (UART_RxBuf m)) = UART_RX_BUFFER_SIZE ->
  (UART1_RxHead m + 1) mod UART_RX_BUFFER_SIZE <> UART1_RxTail m ->
  let m1 := SIGNAL_UART1_RECEIVE m in
  load (UART_RxBuf m1) ((UART1_RxHead m + 1) mod UART_RX_BUFFER_SIZE) =
    rx_byte (UART1_STATUS m) (UART1_DATA m) /\
  fst (uart1_getc m1) =
    u16 (Z.shiftl (Z.land (UART1_STATUS m) (Z.lor (_BV FE) (_BV DOR))) 8 +
         load (UART1_RxBuf m) ((UART1_RxTail m + 1) mod UART_RX_BUFFER_SIZE)).
Proof.
  intros Hp (Hlen & Hh & Ht) Hlen0 Hroom m1.
  assert (Hb : 0 <= (UART1_RxHead m + 1) mod UART_RX_BUFFER_SIZE < UART_RX_BUFFER_SIZE)
    by (apply Z.mod_pos_bound; lia).
  assert (Hm1 : m1 =
    on_vars1 (set_LastRxError (Z.land (UART1_STATUS m) (Z.lor (_BV FE) (_BV DOR))))
      (on_vars0 (set_RxBuf (store (UART_RxBuf m)
                   ((UART1_RxHead m + 1) mod UART_RX_BUFFER_SIZE)
                   (rx_byte (UART1_STATUS m) (UART1_DATA m))))
         (on_vars1 (set_RxHead ((UART1_RxHead m + 1) mod UART_RX_BUFFER_SIZE)) m))).
  { subst m1. unfold SIGNAL_UART1_RECEIVE, rx_byte, UART_RX_BUFFER_MASK.
    rewrite mask_next by (assumption || lia).
    destruct (Z.eqb_spec ((UART1_RxHead m + 1) mod UART_RX_BUFFER_SIZE) (UART1_RxTail m));
      [congruence |].
    destruct (_ =? 0); reflexivity. }
  rewrite Hm1. split.
  - cbn [UART_RxBuf vars0 on_vars1 on_vars0 set_RxBuf RxBuf].
    apply load_store_eq. lia.
  - unfold uart1_getc, UART_RX_BUFFER_MASK.
    cbn [UART1_RxHead UART1_RxTail UART1_RxBuf UART1_LastRxError vars1 on_vars1 on_vars0
         set_LastRxError set_RxHead set_RxTail RxHead RxTail RxBuf LastRxError].
    fold (UART1_RxTail m) (UART1_RxBuf m).
    rewrite mask_next by (assumption || lia).
    destruct (Z.eqb_spec ((UART1_RxHead m + 1) mod UART_RX_BUFFER_SIZE) (UART1_RxTail m));
      [congruence |].
    reflexivity.
Qed.

(** ** Control register *)

Lemma reg_set_bits (reg v i : Z) :
  0 <= i < 8 -> Z.testbit (reg_set reg v) i = Z.testbit reg i || Z.testbit v i.
Proof.
  intros Hi. unfold reg_set. rewrite u8_testbit by assumption. apply Z.lor_spec.
Qed.

Lemma reg_clear_bits (reg v i : Z) :
  0 <= i < 8 -> Z.testbit (reg_clear reg v) i = Z.testbit reg i && negb (Z.testbit v i).
Proof.
  intros Hi. unfold reg_clear. rewrite u8_testbit by assumption.
  rewrite Z.land_spec, Z.lnot_spec by lia. reflexivity.
Qed.

(** X9. The transmit functions and handlers touch one bit of the control
    register of their USART: [uart_putc] and [uart1_putc] set the
    transmit-ready interrupt enable bit, the transmit handlers clear it or
    leave it, and the seven other bits (receiver, transmitter and receive
    interrupt enables among them) keep their values. *)
Theorem control_bits_kept (data i : Z) (m : machine) :
  0 <= i < 8 -> i <> UDRIE ->
  Z.testbit (UART0_CONTROL (uart_putc data m)) i = Z.testbit (UART0_CONTROL m) i /\
  Z.testbit (UART0_CONTROL (ISR_UART0_TRANSMIT m)) i = Z.testbit (UART0_CONTROL m) i /\
  (forall m', uart1_putc data m = Some m' ->
     Z.testbit (UART1_CONTROL m') i = Z.testbit (UART1_CONTROL m) i) /\
  Z.testbit (UART1_CONTROL (SIGNAL_UART1_TRANSMIT m)) i = Z.testbit (UART1_CONTROL m) i.
Proof.
  intros Hi Hne.
  assert (Hbit : Z.testbit (_BV UDRIE) i = false).
  { unfold _BV. rewrite Z.shiftl_spec by lia.
    destruct (Z.ltb_spec i UDRIE); [apply Z.testbit_neg_r; lia |].
    apply Z.bits_above_log2; simpl; lia. }
  assert (Hset : forall c, Z.testbit (reg_set c (_BV UDRIE)) i = Z.testbit c i)
    by (intros c; rewrite reg_set_bits, Hbit by assumption; apply orb_false_r).
  assert (Hclr : forall c, Z.testbit (reg_clear c (_BV UDRIE)) i = Z.testbit c i)
    by (intros c; rewrite reg_clear_bits, Hbit by assumption; apply andb_true_r).
  split.
  { unfold uart_putc, uart0_txpush.
    destruct (negb (UART_TxTail m =? _)); cbn [negb Z.eqb]; [apply Hset | reflexivity]. }
  split.
  { unfold ISR_UART0_TRANSMIT, uart0_txpop.
    destruct (negb (UART_TxTail m =? _)).
    - destruct (negb (_ =? 0)); [reflexivity | apply Hclr].
    - cbn [negb Z.eqb]. apply Hclr. }
  split.
  { intros m'. unfold uart1_putc. destruct (_ =? _); [discriminate |].
    intros [= <-]. apply Hset. }
  unfold SIGNAL_UART1_TRANSMIT. destruct (negb _); [reflexivity | apply Hclr].
Qed.

(** ** Line configuration *)

Ltac case_eqb x n := destruct (Z.eqb_spec x n) as [-> | ?].

Lemma frame_format_shape (fd sb par : Z) (r : usart_regs) :
  frame_format fd sb par r =
    (mk_regs (STATUS r)
       (if fd =? 9 then reg_set (CONTROL r) (Z.shiftl 1 UCSZ2)
        else reg_clear (CONTROL r) (Z.shiftl 1 UCSZ2))
       (UCSRC_parity par (UCSRC_stop sb (UCSRC_size fd (UCSRC r))))
       (UBRRH r) (UBRRL r) (UDR_rx r) (UDR_tx r),
     (norm_FDbits fd, norm_Stopbits sb, norm_Parity par)).
Proof.
  assert (Hfd : forall x, x <> 9 -> x <> 8 -> x <> 7 -> x <> 6 -> x <> 5 ->
                          norm_FDbits x = 8).
  { intros x. unfold norm_FDbits.
    destruct (Z.leb_spec 5 x), (Z.leb_spec x 9); cbn [andb]; lia. }
  unfold frame_format.
  (case_eqb fd 9; [| case_eqb fd 8; [| case_eqb fd 7; [| case_eqb fd 6; [| case_eqb fd 5]]]]);
  (case_eqb sb 1; [| case_eqb sb 2]);
  (case_eqb par 0; [| case_eqb par 2; [| case_eqb par 3]]);
  cbn [set_CONTROL set_UCSRC CONTROL UCSRC STATUS UBRRH UBRRL UDR_rx UDR_tx];
  rewrite ?Hfd by assumption;
  unfold UCSRC_parity, UCSRC_stop, UCSRC_size, norm_Stopbits, norm_Parity;
  repeat match goal with
         | H : ?x <> ?n |- context [?x =? ?n] =>
             destruct (Z.eqb_spec x n); [contradiction |]
         end;
  reflexivity.
Qed.







Lemma usart_setup_snd (baudrate fd sb par : Z) (r : usart_regs) :
  snd (usart_setup baudrate fd sb par r) =
    (norm_FDbits fd, norm_Stopbits sb, norm_Parity par).
Proof.
  unfold usart_setup.
  destruct (negb (Z.land baudrate 32768 =? 0)); rewrite frame_format_shape; reflexivity.
Qed.






(** X12. Opening a channel is local to it.  [UARTenable] leaves the variables
    and registers of channel 1 and the storage of both channel 0 buffers as
    they were, and sends nothing; the object it returns has its cursor at 0,
    an empty line ([msg[0]] is null), the frame it recorded, and the baud
    argument as it was passed, double-speed bit included.  [UART1enable] does
    the same with the channels exchanged. *)
Theorem enable_is_local (baudrate fd sb par : Z) (msg0 : list Z) (m : machine) :
  msg0 <> [] ->
  (let uart := fst (UARTenable baudrate fd sb par msg0 m) in
   let m' := snd (UARTenable baudrate fd sb par msg0 m) in
   vars1 m' = vars1 m /\ usart1 m' = usart1 m /\
   UART_TxBuf m' = UART_TxBuf m /\ UART_RxBuf m' = UART_RxBuf m /\
   UDR_tx (usart0 m') = UDR_tx (usart0 m) /\
   index uart = 0 /\ load (msg uart) 0 = 0 /\ length (msg uart) = length msg0 /\
   ubrr uart = baudrate /\
   FDbits uart = norm_FDbits fd /\ Stopbits uart = norm_Stopbits sb /\
   Parity uart = norm_Parity par) /\
  (let uart := fst (UART1enable baudrate fd sb par msg0 m) in
   let m' := snd (UART1enable baudrate fd sb par msg0 m) in
   vars0 m' = vars0 m /\ usart0 m' = usart0 m /\
   UART1_TxBuf m' = UART1_TxBuf m /\ UART1_RxBuf m' = UART1_RxBuf m /\
   UDR_tx (usart1 m') = UDR_tx (usart1 m) /\
   index uart = 0 /\ load (msg uart) 0 = 0 /\ length (msg uart) = length msg0 /\
   ubrr uart = baudrate /\
   FDbits uart = norm_FDbits fd /\ Stopbits uart = norm_Stopbits sb /\
   Parity uart = norm_Parity par).
Proof.
  intros Hmsg.
  assert (Hl : load (store msg0 0 0) 0 = 0).
  { apply load_store_eq. destruct msg0; [congruence | cbn [length]; lia]. }
  pose proof (usart_setup_snd baudrate fd sb par (usart0 m)) as Hs0.
  pose proof (usart_setup_snd baudrate fd sb par (usart1 m)) as Hs1.
  pose proof (usart_setup_UDR_tx baudrate fd sb par (usart0 m)) as Ho0.
  pose proof (usart_setup_UDR_tx baudrate fd sb par (usart1 m)) as Ho1.
  split; cbv zeta.
  - unfold UARTenable. clear Hs1 Ho1.
    destruct (usart_setup _ _ _ _ _) as (r & ((f & s0) & p)) eqn:E.
    change (usart_setup baudrate fd sb par (usart0 m) = (r, (f, s0, p))) in E.
    rewrite ?E in Hs0, Ho0. cbn [fst snd] in Hs0, Ho0. injection Hs0 as -> -> ->.
    cbn [fst snd vars1 usart1 usart0 on_usart0 on_vars0 set_SREG index msg ubrr
         FDbits Stopbits Parity].
    rewrite length_store.
    repeat (split; [first [reflexivity | assumption] |]). reflexivity.
  - unfold UART1enable. clear Hs0 Ho0.
    destruct (usart_setup _ _ _ _ _) as (r & ((f & s0) & p)) eqn:E.
    change (usart_setup baudrate fd sb par (usart1 m) = (r, (f, s0, p))) in E.
    rewrite ?E in Hs1, Ho1. cbn [fst snd] in Hs1, Ho1. injection Hs1 as -> -> ->.
    cbn [fst snd vars0 usart1 usart0 on_usart1 on_vars1 set_SREG index msg ubrr
         FDbits Stopbits Parity].
    rewrite length_store.
    repeat (split; [first [reflexivity | assumption] |]). reflexivity.
Qed.

(** ** Lines *)

(** X13. With a [msg] of [UART_RX_BUFFER_SIZE] slots and the cursor inside
    it, [uart1_read] never writes outside [msg] and leaves the cursor inside
    it.  It appends the next byte and a null after it when the receive buffer
    is not empty and the cursor is below [UART_RX_BUFFER_MASK], and then
    returns the literal ["empty"]; otherwise it sets the cursor to 0, leaves
    [msg] and the buffer as they are, and returns [msg]. *)
Theorem uart1_read_cursor (uart : UART) (m : machine) :
  is_pow2 UART_RX_BUFFER_SIZE = true ->
  0 <= UART1_RxTail m ->
  Z.of_nat (length (msg uart)) = UART_RX_BUFFER_SIZE ->
  0 <= index uart < UART_RX_BUFFER_SIZE ->
  exists r uart' m',
    uart1_read uart m = Some (r, uart', m') /\
    0 <= index uart' < UART_RX_BUFFER_SIZE /\
    length (msg uart') = length (msg uart) /\
    ((UART1_RxTail m <> UART1_RxHead m /\ index uart < UART_RX_BUFFER_MASK /\
      r = ret_empty /\
      index uart' = index uart + 1 /\
      load (msg uart') (index uart) =
        load (UART1_RxBuf m) ((UART1_RxTail m + 1) mod UART_RX_BUFFER_SIZE) /\
      load (msg uart') (index uart + 1) = 0 /\
      UART1_RxTail m' = (UART1_RxTail m + 1) mod UART_RX_BUFFER_SIZE) \/
     ((UART1_RxTail m = UART1_RxHead m \/ UART_RX_BUFFER_MASK <= index uart) /\
      r = ret_msg (msg uart) /\ index uart' = 0 /\ msg uart' = msg uart /\ m' = m)).
Proof.
  intros Hp Ht Hlen Hi. unfold uart1_read, UART_RX_BUFFER_MASK.
  rewrite mask_next by assumption.
  destruct (Z.eqb_spec (UART1_RxTail m) (UART1_RxHead m)) as [He | Hne];
    cbn [negb andb].
  - do 3 eexists. split; [reflexivity |]. cbn [index msg].
    split; [lia |]. split; [reflexivity |]. right.
    split; [left; exact He |]. repeat split.
  - destruct (Z.ltb_spec (index uart) (UART_RX_BUFFER_SIZE - 1)) as [Hlt | Hge].
    + rewrite store_checked_in by lia.
      rewrite store_checked_in by (rewrite length_store; lia).
      do 3 eexists. split; [reflexivity |]. cbn [index msg].
      rewrite !length_store. split; [lia |]. split; [reflexivity |]. left.
      split; [exact Hne |]. split; [exact Hlt |]. split; [reflexivity |].
      split; [reflexivity |].
      split; [| split; [apply load_store_eq; rewrite length_store; lia | reflexivity]].
      rewrite load_store_ne by lia. apply load_store_eq. lia.
    + do 3 eexists. split; [reflexivity |]. cbn [index msg].
      split; [lia |]. split; [reflexivity |]. right.
      split; [right; exact Hge |]. repeat split.
Qed.

Lemma receive_and_read_prefix (bs p : list Z) (uart : UART) (m : machine) :
  is_pow2 UART_RX_BUFFER_SIZE = true ->
  2 <= UART_RX_BUFFER_SIZE ->
  ring_wf UART_RX_BUFFER_SIZE (UART_RxBuf m) (UART_RxHead m) (UART_RxTail m) ->
  UART_RxHead m = UART_RxTail m ->
  index uart = Z.of_nat (length p) ->
  take (length p) (msg uart) = p ->
  Forall (fun b => b <> 0) bs ->
  Z.of_nat (length p) + Z.of_nat (length bs) < Z.of_nat (length (msg uart)) ->
  (bs = [] -> msg uart !! length p = Some 0) ->
  exists uart' m',
    receive_and_read_all bs (uart, m) = Some (uart', m') /\
    index uart' = Z.of_nat (length p + length bs) /\
    length (msg uart') = length (msg uart) /\
    take (S (length p + length bs)) (msg uart') = p ++ bs ++ [0] /\
    UART_RxHead m' = UART_RxTail m'.
Proof.
  intros Hp Hsz. revert p uart m.
  induction bs as [| b bs IH]; intros p uart m Hwf He Hi Hpre Hnz Hfit Hnil.
  - exists uart, m. cbn [receive_and_read_all length]. rewrite Nat.add_0_r.
    split; [reflexivity |]. split; [exact Hi |]. split; [reflexivity |].
    split; [| exact He].
    rewrite (take_S_r _ _ 0) by (apply Hnil; reflexivity). rewrite Hpre. reflexivity.
  - apply Forall_cons in Hnz. destruct Hnz as [Hb Hnz].
    pose proof Hwf as (Hl & Hh & Ht).
    cbn [length] in Hfit. rewrite Nat2Z.inj_succ in Hfit.
    cbn [receive_and_read_all]. unfold receive_and_read. cbn [fst snd].
    rewrite ISR_UART0_RECEIVE_clean by assumption.
    set (m1 := on_vars0 _ _).
    assert (Hm1t : UART_RxTail m1 = UART_RxTail m) by reflexivity.
    assert (Hm1h : UART_RxHead m1 = (UART_RxHead m + 1) mod UART_RX_BUFFER_SIZE)
      by reflexivity.
    assert (Hm1b : UART_RxBuf m1 = store (UART_RxBuf m) (UART_RxHead m) b) by reflexivity.
    assert (Hne1 : UART_RxHead m1 <> UART_RxTail m1)
      by (rewrite Hm1h, Hm1t, <- He; apply next_ne; assumption).
    assert (Hd : load (UART_RxBuf m1) (UART_RxTail m1) = b)
      by (rewrite Hm1b, Hm1t, <- He; apply load_store_eq; lia).
    rewrite uart_read_appends; rewrite ?Hd, ?Hm1t; try (assumption || lia).
    set (m2 := on_vars0 _ m1).
    assert (Hnext : 0 <= (UART_RxHead m + 1) mod UART_RX_BUFFER_SIZE
                    < UART_RX_BUFFER_SIZE) by (apply Z.mod_pos_bound; lia).
    set (msg1 := store (store (msg uart) (index uart) b) (index uart + 1) 0).
    assert (Hmsg1 : msg1 = <[S (length p) := 0]> (<[length p := b]> (msg uart))).
    { subst msg1. unfold store. rewrite Hi.
      replace (Z.to_nat (Z.of_nat (length p) + 1)) with (S (length p)) by lia.
      rewrite Nat2Z.id. reflexivity. }
    assert (Hlp : (length p < length (msg uart))%nat) by lia.
    destruct (IH (p ++ [b])
                (mk_UART (index uart + 1) msg1 (ubrr uart) (FDbits uart)
                         (Stopbits uart) (Parity uart)) m2)
      as (uart' & m' & E & Hi' & Hlen' & Htake & He').
    + split; [| split]; [cbn; rewrite length_store; exact Hl | cbn; exact Hnext |
                         cbn; rewrite <- He; exact Hnext].
    + cbn. rewrite He. reflexivity.
    + cbn [index]. rewrite length_app, Nat2Z.inj_add, Hi. reflexivity.
    + cbn [msg]. rewrite Hmsg1, length_app. cbn [length].
      replace (length p + 1)%nat with (S (length p)) by lia.
      rewrite take_insert_ge by lia.
      rewrite (take_S_r _ _ b) by (apply list_lookup_insert_eq; exact Hlp).
      rewrite take_insert_ge by lia. rewrite Hpre. reflexivity.
    + exact Hnz.
    + cbn [msg]. subst msg1. rewrite !length_store, length_app, Nat2Z.inj_add.
      cbn [length]. lia.
    + intros _. cbn [msg]. rewrite Hmsg1, length_app. cbn [length].
      replace (length p + 1)%nat with (S (length p)) by lia.
      apply list_lookup_insert_eq. rewrite length_insert. lia.
    + exists uart', m'. split; [exact E |].
      rewrite length_app in Hi', Htake. cbn [length] in Hi', Htake.
      cbn [msg] in Hlen'. subst msg1. rewrite !length_store in Hlen'.
      replace (length p + 1 + length bs)%nat with (length p + S (length bs))%nat
        in Hi', Htake by lia.
      cbn [length]. rewrite <- app_assoc in Htake.
      split; [exact Hi' |]. split; [exact Hlen' |]. split; [exact Htake | exact He'].
Qed.

(** X14. A line that fits is assembled as received.  Starting with the
    cursor at 0 and an empty receive buffer, when one or more non-null bytes
    arrive one at a time and each is fetched with [uart_read], and [msg] has
    room for them and a terminating null, no call writes outside [msg];
    afterwards [msg] starts with these bytes in order followed by a null
    byte, and the cursor is their number. *)
Theorem receive_and_read_line (bs : list Z) (uart : UART) (m : machine) :
  is_pow2 UART_RX_BUFFER_SIZE = true ->
  2 <= UART_RX_BUFFER_SIZE ->
  ring_wf UART_RX_BUFFER_SIZE (UART_RxBuf m) (UART_RxHead m) (UART_RxTail m) ->
  UART_RxHead m = UART_RxTail m ->
  index uart = 0 ->
  bs <> [] ->
  Forall (fun b => b <> 0) bs ->
  Z.of_nat (length bs) < Z.of_nat (length (msg uart)) ->
  exists uart' m',
    receive_and_read_all bs (uart, m) = Some (uart', m') /\
    index uart' = Z.of_nat (length bs) /\
    length (msg uart') = length (msg uart) /\
    take (S (length bs)) (msg uart') = bs ++ [0] /\
    UART_RxHead m' = UART_RxTail m'.
Proof.
  intros Hp Hsz Hwf He Hi Hne Hnz Hfit.
  apply (receive_and_read_prefix bs [] uart m); try assumption.
  all: first [reflexivity | cbn [length]; lia | intros ->; congruence].
Qed.

(** ** After a flush *)

(** X15. After [uart_flush] the receive buffer of channel 0 is an empty
    queue: [uart_available] answers 0, [uart0_rxpop] returns 0 and changes
    nothing, and the bytes that arrive afterwards are the only ones the
    following calls of [uart0_rxpop] return.  After [uart1_flush],
    [uart1_available] answers 0 and [uart1_getc] returns [UART_NO_DATA]. *)
Theorem flush_then_receive (status : Z) (bs : list Z) (m : machine) :
  is_pow2 UART_RX_BUFFER_SIZE = true ->
  2 <= UART_RX_BUFFER_SIZE ->
  ring_wf UART_RX_BUFFER_SIZE (UART_RxBuf m) (UART_RxHead m) (UART_RxTail m) ->
  Z.of_nat (length bs) < UART_RX_BUFFER_SIZE ->
  (uart_available (uart_flush m) = Some 0 /\
   uart0_rxpop (uart_flush m) = (0, uart_flush m) /\
   fst (uart0_rxpop_n (length bs) (deliver status bs (uart_flush m))) =
     map (rx_byte status) bs) /\
  (uart1_available (uart1_flush m) = Some 0 /\
   uart1_getc (uart1_flush m) = (UART_NO_DATA, uart1_flush m)).
Proof.
  intros Hp Hsz (Hlen & Hh & Ht) Hfit.
  assert (Hq : rx0_queue (uart_flush m) []).
  { unfold rx0_queue, ring_queue, ring_wf, uart_flush.
    cbn [UART_RxBuf UART_RxHead UART_RxTail vars0 on_vars0 set_RxHead
         RxBuf RxHead RxTail length holds].
    fold (UART_RxBuf m) (UART_RxTail m).
    change (Z.of_nat 0) with 0. rewrite Z.add_0_r, Z.mod_small by lia.
    repeat split; try lia. }
  assert (Hav : forall h, Z.rem (UART_RX_BUFFER_SIZE - 1 + h - h) (UART_RX_BUFFER_SIZE - 1) = 0).
  { intros h. replace (UART_RX_BUFFER_SIZE - 1 + h - h) with (UART_RX_BUFFER_SIZE - 1) by lia.
    apply Z.rem_same. lia. }
  split; [split; [| split] | split].
  - unfold uart_available, uart_flush, UART_RX_BUFFER_MASK.
    cbn [UART_RxHead UART_RxTail vars0 on_vars0 set_RxHead RxHead RxTail].
    destruct (Z.eqb_spec (UART_RX_BUFFER_SIZE - 1) 0); [lia |]. rewrite Hav. reflexivity.
  - apply uart0_rxpop_empty. reflexivity.
  - pose proof (deliver_queue status bs [] (uart_flush m) Hp Hq) as Hq1.
    cbn [length app] in Hq1.
    destruct (uart0_rxpop_n_queue _ _ Hp (Hq1 ltac:(lia))) as (H & _).
    rewrite length_map in H. exact H.
  - unfold uart1_available, uart1_flush, UART_RX_BUFFER_MASK.
    cbn [UART1_RxHead UART1_RxTail vars1 on_vars1 set_RxHead RxHead RxTail].
    destruct (Z.eqb_spec (UART_RX_BUFFER_SIZE - 1) 0); [lia |]. rewrite Hav. reflexivity.
  - unfold uart1_getc, uart1_flush.
    cbn [UART1_RxHead UART1_RxTail vars1 on_vars1 set_RxHead RxHead RxTail].
    rewrite Z.eqb_refl. reflexivity.
Qed.

(** ** A string that does not fit *)

Lemma uart_puts_app (a b : list Z) (m : machine) :
  uart_puts (a ++ b) m = uart_puts b (uart_puts a m).
Proof.
  revert m. induction a as [| c a IH]; intros m; cbn [app uart_puts]; [reflexivity |].
  apply IH.
Qed.

(** On a full buffer [uart_putc] only overwrites the slot at [tail]. *)
Lemma uart_putc_full (b : Z) (m : machine) :
  is_pow2 UART_TX_BUFFER_SIZE = true ->
  0 <= UART_TxHead m ->
  (UART_TxHead m + 1) mod UART_TX_BUFFER_SIZE = UART_TxTail m ->
  uart_putc b m = on_vars0 (set_TxBuf (store (UART_TxBuf m) (UART_TxTail m) 0)) m.
Proof.
  intros Hp Hh Hfull. unfold uart_putc, uart0_txpush, UART_TX_BUFFER_MASK.
  rewrite mask_next by assumption. rewrite Hfull, Z.eqb_refl. reflexivity.
Qed.

Lemma uart_puts_full (s : list Z) (m : machine) :
  is_pow2 UART_TX_BUFFER_SIZE = true ->
  0 <= UART_TxHead m ->
  (UART_TxHead m + 1) mod UART_TX_BUFFER_SIZE = UART_TxTail m ->
  s <> [] ->
  uart_puts s m = on_vars0 (set_TxBuf (store (UART_TxBuf m) (UART_TxTail m) 0)) m.
Proof.
  intros Hp. revert m.
  induction s as [| c s IH]; intros m Hh Hfull Hne; [congruence |].
  cbn [uart_puts]. rewrite uart_putc_full by assumption.
  destruct s as [| c' s]; [reflexivity |].
  rewrite IH; [| exact Hh | exact Hfull | discriminate].
  unfold on_vars0, set_TxBuf, store, UART_TxBuf, UART_TxTail. cbn.
  rewrite list_insert_insert_eq. reflexivity.
Qed.

(** X17. A string that does not fit stalls channel 0.  When [uart_puts] is
    given N or more characters while the transmit buffer is empty and the
    transmit handler does not run in between, the pushes that find the buffer
    full overwrite the first character with a null byte; the first firing of
    the handler then pops that null byte, writes nothing to the data register
    and clears the transmit-ready interrupt enable bit, although (for N of 4
    or more) bytes are still queued. *)
Theorem uart_puts_too_long (s : list Z) (m : machine) :
  is_pow2 UART_TX_BUFFER_SIZE = true ->
  2 <= UART_TX_BUFFER_SIZE ->
  tx0_queue m [] ->
  Forall (fun b => b <> 0) s ->
  UART_TX_BUFFER_SIZE <= Z.of_nat (length s) ->
  let m1 := uart_puts s m in
  let m2 := ISR_UART0_TRANSMIT m1 in
  load (UART_TxBuf m1) (UART_TxTail m1) = 0 /\
  UDR_tx (usart0 m2) = UDR_tx (usart0 m) /\
  Z.testbit (UART0_CONTROL m2) UDRIE = false /\
  (4 <= UART_TX_BUFFER_SIZE -> UART_TxHead m2 <> UART_TxTail m2).
Proof.
  intros Hp Hsz Hq Hnz Hlong m1 m2.
  set (n := Z.to_nat (UART_TX_BUFFER_SIZE - 1)).
  assert (Hsplit : s = take n s ++ drop n s) by (symmetry; apply take_drop).
  assert (Hl1 : length (take n s) = n) by (rewrite length_take; lia).
  assert (Hl2 : drop n s <> []).
  { intros E. apply (f_equal length) in E. rewrite length_drop in E. cbn in E. lia. }
  destruct (uart_puts_queue (take n s) [] m Hp Hq) as (Hq1 & Hout1).
  { cbn [length]. rewrite Hl1. lia. }
  cbn [app] in Hq1.
  set (ma := uart_puts (take n s) m) in *.
  pose proof Hq1 as ((Hlen & Hh & Ht) & _ & Hhead & _).
  rewrite Hl1 in Hhead.
  assert (Hfull : (UART_TxHead ma + 1) mod UART_TX_BUFFER_SIZE = UART_TxTail ma).
  { rewrite Hhead, Zplus_mod_idemp_l.
    replace (UART_TxTail ma + Z.of_nat n + 1)
      with (UART_TxTail ma + 1 * UART_TX_BUFFER_SIZE) by lia.
    rewrite Z.mod_add, Z.mod_small by lia. reflexivity. }
  assert (Hm1 : m1 = on_vars0 (set_TxBuf (store (UART_TxBuf ma) (UART_TxTail ma) 0)) ma).
  { subst m1. rewrite Hsplit, uart_puts_app. fold ma.
    apply uart_puts_full; [assumption | lia | assumption | assumption]. }
  assert (Hne : UART_TxHead ma <> UART_TxTail ma).
  { rewrite Hhead. apply mod_shift_ne; lia. }
  assert (Hz : load (UART_TxBuf m1) (UART_TxTail m1) = 0).
  { rewrite Hm1. cbn [UART_TxBuf UART_TxTail vars0 on_vars0 set_TxBuf TxBuf TxTail].
    fold (UART_TxBuf ma) (UART_TxTail ma). apply load_store_eq. lia. }
  split; [exact Hz |].
  assert (Hm2 : m2 =
    on_usart0 (fun u => set_CONTROL (reg_clear (CONTROL u) (_BV UDRIE)) u)
      (on_vars0 (set_TxTail ((UART_TxTail m1 + 1) mod UART_TX_BUFFER_SIZE)) m1)).
  { subst m2. apply ISR_UART0_TRANSMIT_null; [assumption | | | exact Hz];
      rewrite Hm1; cbn [UART_TxHead UART_TxTail vars0 on_vars0 set_TxBuf TxHead TxTail];
      [apply Ht | exact Hne]. }
  rewrite Hm2.
  split; [rewrite Hm1; cbn; exact Hout1 |].
  split.
  - cbn [UART0_CONTROL usart0 on_usart0 set_CONTROL CONTROL]. unfold _BV.
    rewrite reg_clear_testbit by (unfold UDRIE; lia).
    rewrite Z.eqb_refl. apply andb_false_r.
  - intros H4. rewrite Hm1.
    cbn [UART_TxHead UART_TxTail vars0 on_usart0 on_vars0 set_TxBuf set_TxTail
         TxHead TxTail].
    fold (UART_TxHead ma) (UART_TxTail ma). rewrite Hhead.
    intros E.
    assert (E' : ((UART_TxTail ma + 1) mod UART_TX_BUFFER_SIZE + (Z.of_nat n - 1))
                   mod UART_TX_BUFFER_SIZE
                 = (UART_TxTail ma + 1) mod UART_TX_BUFFER_SIZE).
    { rewrite Zplus_mod_idemp_l.
      replace (UART_TxTail ma + 1 + (Z.of_nat n - 1)) with (UART_TxTail ma + Z.of_nat n)
        by lia.
      exact E. }
    revert E'. apply mod_shift_ne; [apply Z.mod_pos_bound; lia | lia].
Qed.

(** ** Receive overflow on channel 1 *)


End Driver.

(** * Keypad line buffer *)

Lemma MM74C923_gets_key (c : Z) (k : keypad) :
  is_key c ->
  Z.of_nat (length (MM74C923_string k)) = MM74C923_STR_SIZE ->
  0 <= mm74c923_i k < 4 ->
  MM74C923_gets c k =
    Some (mk_keypad (mm74c923_i k + 1)
            (store (store (MM74C923_string k) (mm74c923_i k) c) (mm74c923_i k + 1) 0)).
Proof.
  intros [H0 H42] Hlen Hi. unfold MM74C923_gets, MM74C923_STR_SIZE in *.
  destruct (Z.eqb_spec c 42); [contradiction |].
  destruct (Z.eqb_spec c 0); [contradiction |]. cbn [negb].
  destruct (Z.eqb_spec (mm74c923_i k) 5); [lia |].
  assert (Hu : u8 (mm74c923_i k + 1) = mm74c923_i k + 1)
    by (apply Z.mod_small; lia).
  rewrite Hu.
  rewrite store_checked_in by lia.
  rewrite store_checked_in by (rewrite length_store; lia).
  reflexivity.
Qed.

(** X16. [MM74C923_gets] keeps its line in the five-slot [MM74C923_string].
    Starting with the cursor at 0, four keys are stored in order with a null
    after them; the fifth key is stored in the last slot and its terminating
    null is written to [MM74C923_string[5]], outside the array.  The test that
    wraps the cursor at [MM74C923_STR_SIZE] only runs on the call after
    that. *)
Theorem MM74C923_gets_fifth_key (c1 c2 c3 c4 c5 : Z) (k : keypad) :
  is_key c1 -> is_key c2 -> is_key c3 -> is_key c4 -> is_key c5 ->
  Z.of_nat (length (MM74C923_string k)) = MM74C923_STR_SIZE ->
  mm74c923_i k = 0 ->
  exists k4,
    MM74C923_gets_all [c1; c2; c3; c4] k = Some k4 /\
    mm74c923_i k4 = 4 /\
    MM74C923_string k4 = [c1; c2; c3; c4; 0] /\
    MM74C923_gets c5 k4 = None.
Proof.
  intros K1 K2 K3 K4 K5 Hlen Hi.
  destruct k as [i s]. cbn [mm74c923_i MM74C923_string] in *. subst i.
  unfold MM74C923_STR_SIZE in Hlen.
  destruct s as [| s0 [| s1 [| s2 [| s3 [| s4 [| s5 s]]]]]]; cbn [length] in Hlen; try lia.
  cbn [MM74C923_gets_all].
  rewrite MM74C923_gets_key; [| assumption | reflexivity | cbn; lia].
  cbn [mm74c923_i MM74C923_string].
  rewrite MM74C923_gets_key; [| assumption | reflexivity | cbn; lia].
  cbn [mm74c923_i MM74C923_string].
  rewrite MM74C923_gets_key; [| assumption | reflexivity | cbn; lia].
  cbn [mm74c923_i MM74C923_string].
  rewrite MM74C923_gets_key; [| assumption | reflexivity | cbn; lia].
  cbn [mm74c923_i MM74C923_string].
  eexists. split; [reflexivity |]. split; [reflexivity |]. split; [reflexivity |].
  destruct K5 as [H0 H42]. unfold MM74C923_gets.
  destruct (Z.eqb_spec c5 42); [contradiction |].
  destruct (Z.eqb_spec c5 0); [contradiction |]. reflexivity.
Qed.

(** * Concrete runs *)

Lemma uart0_push_full_run :
  (load (UART_TxBuf m_full) 0 = 72 /\
   fst (uart0_txpush 8 63 m_full) = 0 /\
   load (UART_TxBuf (snd (uart0_txpush 8 63 m_full))) 0 = 0) /\
  (load (UART_RxBuf m_full) 0 = 72 /\
   fst (uart0_rxpush 8 63 m_full) = 0 /\
   load (UART_RxBuf (snd (uart0_rxpush 8 63 m_full))) 0 = 0).
Proof.
  assert (Hwf : ring_wf 8 hello 7 0) by (repeat split; simpl; lia).
  destruct (uart0_push_full_overwrites_tail 8 8 63 m_full eq_refl eq_refl Hwf Hwf)
    as [Ht Hr].
  destruct (Ht eq_refl) as (Ht1 & _ & _ & _ & Ht2).
  destruct (Hr eq_refl) as (Hr1 & _ & _ & _ & Hr2).
  exact (conj (conj eq_refl (conj Ht1 Ht2)) (conj eq_refl (conj Hr1 Hr2))).
Defined.



(** On [m_wrapped] six bytes are queued on each channel and both functions
    answer five. *)
Lemma uart_available_run :
  queued 8 (UART_RxHead m_wrapped) (UART_RxTail m_wrapped) = 6 /\
  uart_available 8 m_wrapped = Some 5 /\
  uart1_available 8 m_wrapped = Some 5.
Proof.
  assert (Hwf : ring_wf 8 hello 3 5) by (repeat split; simpl; lia).
  assert (Hs : 2 <= 8) by lia.
  destruct (uart_available_value 8 m_wrapped Hs Hwf Hwf) as (A & B).
  exact (conj eq_refl (conj A B)).
Defined.

(** C4 as stated fails: entered with global interrupts disabled
    ([SREG] = 0), both constructors return with them enabled. *)
Lemma enable_turns_interrupts_on :
  Z.testbit (SREG (m_reset 8 8)) GLOBAL_INTERRUPT_ENABLE = false /\
  Z.testbit (SREG (snd (UARTenable 103 8 1 0 (repeat 0 8) (m_reset 8 8))))
            GLOBAL_INTERRUPT_ENABLE = true /\
  Z.testbit (SREG (snd (UART1enable 103 8 1 0 (repeat 0 8) (m_reset 8 8))))
            GLOBAL_INTERRUPT_ENABLE = true.
Proof. vm_compute. repeat split. Qed.

(** Entered with interrupts enabled and the carry flag set, [UARTenable]
    returns with both still set and the indices at 0. *)
Lemma enable_resets_indices_and_sets_I_run :
  let m := snd (UARTenable 103 8 1 0 (repeat 0 8) (set_SREG 129 m_full)) in
  UART_TxHead m = 0 /\ UART_RxHead m = 0 /\
  Z.testbit (SREG m) GLOBAL_INTERRUPT_ENABLE = true /\
  Z.testbit (SREG m) 0 = true.
Proof.
  destruct (enable_resets_indices_and_sets_I 103 8 1 0 (repeat 0 8) (set_SREG 129 m_full))
    as ((A & _ & B & _ & C & D) & _).
  assert (H0 : 0 <= 0 < 7) by lia.
  exact (conj A (conj B (conj C (D 0 H0)))).
Defined.

(** Two bytes with framing errors arrive on channel 0; the read that follows
    returns ['X'] with an empty high byte. *)
Lemma uart0_rx_isr_keeps_latch_run :
  let m := ISR_UART0_RECEIVE 8 (ISR_UART0_RECEIVE 8 m_frame_error) in
  UART_LastRxError m = 0 /\ fst (uart_getc 8 256 m) = 88.
Proof.
  split; [| reflexivity].
  rewrite !uart0_rx_isr_keeps_latch. reflexivity.
Defined.

(** A byte with a framing error arrives on channel 1: slot 1 of the channel 0
    storage changes from 101 to ['X'], the channel 1 storage does not
    change. *)
Lemma uart1_rx_error_writes_channel0_run :
  load (UART_RxBuf m_frame_error) 1 = 101 /\
  load (UART_RxBuf (SIGNAL_UART1_RECEIVE 8 512 m_frame_error)) 1 = 88 /\
  UART1_RxBuf (SIGNAL_UART1_RECEIVE 8 512 m_frame_error) = hello /\
  UART1_RxHead (SIGNAL_UART1_RECEIVE 8 512 m_frame_error) = 1.
Proof.
  assert (Hwf : ring_wf 8 hello 0 0) by (repeat split; simpl; lia).
  assert (Herr : Z.land (UART1_STATUS m_frame_error) (Z.lor (_BV FE) (_BV DOR)) <> 0)
    by (vm_compute; lia).
  assert (Hroom : (UART1_RxHead m_frame_error + 1) mod 8 <> UART1_RxTail m_frame_error)
    by (vm_compute; lia).
  destruct (uart1_rx_error_writes_channel0 8 512 m_frame_error eq_refl Hwf Herr Hroom)
    as (A & B & C & _).
  refine (conj eq_refl (conj _ (conj B A))).
  rewrite C. reflexivity.
Defined.

(** The scenario on a 32-slot channel 0 after reset. *)
Lemma write_Hi_drains_run :
  let m2 := ISR_UART0_TRANSMIT 32 (ISR_UART0_TRANSMIT 32
              (write_Hi 32 103 8 1 0 (repeat 0 32) (m_reset 32 32))) in
  UDR_tx (usart0 m2) = [72; 105] /\
  UART_TxHead m2 = UART_TxTail m2 /\
  Z.testbit (UART0_CONTROL m2) UDRIE = true /\
  Z.testbit (UART0_CONTROL (ISR_UART0_TRANSMIT 32 m2)) UDRIE = false.
Proof.
  assert (Hsz : 4 <= 32) by lia.
  destruct (write_Hi_drains 32 103 8 1 0 (repeat 0 32) (m_reset 32 32) eq_refl Hsz eq_refl)
    as ((A & B & C) & (_ & _ & D)).
  exact (conj A (conj B (conj C D))).
Defined.

(** C7 as stated fails: after the two firings that send ['H'] and ['i'] the
    transmit-ready interrupt enable bit is still set. *)
Lemma write_Hi_leaves_UDRIE_set :
  let m2 := ISR_UART0_TRANSMIT 32 (ISR_UART0_TRANSMIT 32
              (write_Hi 32 103 8 1 0 (repeat 0 32) (m_reset 32 32))) in
  UDR_tx (usart0 m2) = [72; 105] /\
  UART_TxHead m2 = UART_TxTail m2 /\
  Z.testbit (UART0_CONTROL m2) UDRIE <> false.
Proof. vm_compute. repeat split; congruence. Qed.

(** C8 as stated fails: on [m_wrapped] ([head] = 3, [tail] = 5) a flush
    leaves [tail] at 5 instead of moving it to 3, and moves the
    producer-owned [head] from 3 to 5. *)
Lemma flush_changes_head_not_tail :
  UART_RxHead m_wrapped = 3 /\ UART_RxTail m_wrapped = 5 /\
  UART_RxTail (uart_flush m_wrapped) <> UART_RxHead m_wrapped /\
  UART_RxHead (uart_flush m_wrapped) <> UART_RxHead m_wrapped /\
  UART1_RxTail (uart1_flush m_wrapped) <> UART1_RxHead m_wrapped /\
  UART1_RxHead (uart1_flush m_wrapped) <> UART1_RxHead m_wrapped.
Proof. vm_compute. repeat split; congruence. Qed.

(** With an eight-slot [msg], seven bytes are gathered and the eighth call
    writes [msg[8]]. *)
Lemma uart_read_leaves_msg_run :
  let st := UARTenable 103 8 1 0 (repeat 0 8) (m_reset 8 8) in
  (exists st', receive_and_read_all 8 [65; 66; 67; 68; 69; 70; 71] st = Some st' /\
               index (fst st') = 7 /\ length (msg (fst st')) = 8%nat) /\
  receive_and_read_all 8 [65; 66; 67; 68; 69; 70; 71; 72] st = None.
Proof.
  split.
  - eexists. split; [vm_compute; reflexivity |]. split; reflexivity.
  - assert (Hwf : ring_wf 8 (repeat 0 8) 0 0) by (repeat split; simpl; lia).
    assert (Hsz : 2 <= 8) by lia.
    assert (H0 : 0 <= 0) by lia.
    assert (Hnz : Forall (fun b => b <> 0) [65; 66; 67; 68; 69; 70; 71; 72])
      by (repeat constructor; lia).
    assert (Hne : [65; 66; 67; 68; 69; 70; 71; 72] <> @nil Z) by discriminate.
    assert (Hlen : Z.of_nat 8 <= 0 + Z.of_nat 8) by lia.
    assert (Hsmall : Z.of_nat 8 <= 127) by lia.
    exact (uart_read_leaves_msg 8 [65; 66; 67; 68; 69; 70; 71; 72]
             (fst (UARTenable 103 8 1 0 (repeat 0 8) (m_reset 8 8)))
             (snd (UARTenable 103 8 1 0 (repeat 0 8) (m_reset 8 8)))
             eq_refl Hsz Hwf eq_refl H0 Hnz Hne Hlen Hsmall).
Defined.

(** On [m_null_first] the handler drops the null byte and disables the
    interrupt although ['A'] and ['B'] are still queued. *)
Lemma null_byte_reads_as_empty_run :
  let m := ISR_UART0_TRANSMIT 8 m_null_first in
  fst (uart0_txpop 8 m_null_first) = 0 /\
  UART_TxTail m = 1 /\ UART_TxHead m = 3 /\
  UDR_tx (usart0 m) = [] /\
  Z.testbit (UART0_CONTROL m_null_first) UDRIE = true /\
  Z.testbit (UART0_CONTROL m) UDRIE = false.
Proof.
  assert (Hwf : ring_wf 8 [0; 65; 66; 0; 0; 0; 0; 0] 3 0) by (repeat split; simpl; lia).
  assert (Hne : (3 : Z) <> 0) by lia.
  destruct (null_byte_reads_as_empty 8 8 m_null_first eq_refl eq_refl Hwf Hwf)
    as (_ & A & _ & _ & B).
  destruct (A Hne eq_refl) as (A1 & _).
  destruct (B Hne eq_refl) as (B1 & B2 & B3 & B4).
  exact (conj A1 (conj B1 (conj B2 (conj B3 (conj eq_refl B4))))).
Defined.

(** * Concrete runs of the further properties *)

Ltac concrete := repeat split; first [reflexivity | lia | (vm_compute; congruence)].

Lemma machine_wf_preserved_run :
  machine_wf 8 8 (uart_puts 8 [72; 105] (m_reset 8 8)) /\
  machine_wf 8 8 (ISR_UART0_RECEIVE 8 (m_reset 8 8)) /\
  machine_wf 8 8 (SIGNAL_UART1_RECEIVE 8 512 (m_reset 8 8)) /\
  machine_wf 8 8 (snd (UARTenable 103 8 1 0 (repeat 0 8) (m_reset 8 8))) /\
  (exists r, uart_read 8 uart_fresh (m_reset 8 8) = Some r /\ machine_wf 8 8 (snd r)) /\
  (exists r, uart1_read 8 uart_fresh (m_reset 8 8) = Some r /\ machine_wf 8 8 (snd r)).
Proof.
  assert (Hwf : machine_wf 8 8 (m_reset 8 8)) by concrete.
  assert (Hi : 0 <= index uart_fresh) by (vm_compute; congruence).
  assert (Hroom : index uart_fresh + 1 < Z.of_nat (length (msg uart_fresh)))
    by reflexivity.
  assert (Hin : 0 <= index uart_fresh < 8) by concrete.
  destruct (machine_wf_preserved 8 8 256 512 65 103 8 1 0 [72; 105] (repeat 0 8)
              uart_fresh (m_reset 8 8) eq_refl eq_refl Hwf)
    as (_ & (_ & _ & A & _ & _ & _ & R0) & (_ & _ & _ & _ & _ & _ & R1) &
        (B & _ & C & _) & D & _).
  exact (conj A (conj B (conj C (conj D (conj (R0 Hi Hroom) (R1 eq_refl Hin)))))).
Defined.

Lemma never_written_run :
  UART_LastRxError (ISR_UART0_RECEIVE 8 m_frame_error) = UART_LastRxError m_frame_error /\
  UART1_RxBuf (SIGNAL_UART1_RECEIVE 8 512 m_frame_error) = UART1_RxBuf m_frame_error /\
  (exists r, uart_read 8 uart_fresh m_rx3 = Some r /\ frozen m_rx3 (snd r)) /\
  (exists r, uart1_read 8 uart_fresh m_rx3 = Some r /\ frozen m_rx3 (snd r)).
Proof.
  assert (Hi : 0 <= index uart_fresh) by (vm_compute; congruence).
  assert (Hroom : index uart_fresh + 1 < Z.of_nat (length (msg uart_fresh)))
    by reflexivity.
  assert (Hin : 0 <= index uart_fresh < 8) by concrete.
  destruct (never_written 8 8 256 512 65 103 8 1 0 [72; 105] (repeat 0 8)
              uart_fresh m_frame_error)
    as (_ & _ & _ & ((_ & A) & _ & (B & _) & _) & _).
  destruct (never_written 8 8 256 512 65 103 8 1 0 [72; 105] (repeat 0 8)
              uart_fresh m_rx3)
    as (_ & (_ & _ & _ & _ & _ & _ & R0) & (_ & _ & _ & _ & _ & _ & R1) & _).
  exact (conj A (conj B (conj (R0 Hi Hroom) (R1 eq_refl Hin)))).
Defined.

Lemma uart_puts_then_drain_run :
  let m1 := fire (ISR_UART0_TRANSMIT 8) (length (@nil Z) + length [72; 105])
              (uart_puts 8 [72; 105] (m_reset 8 8)) in
  UDR_tx (usart0 m1) = UDR_tx (usart0 (m_reset 8 8)) ++ [] ++ [72; 105] /\
  UART_TxHead m1 = UART_TxTail m1 /\
  UDR_tx (usart0 (ISR_UART0_TRANSMIT 8 m1)) = UDR_tx (usart0 m1) /\
  Z.testbit (UART0_CONTROL (ISR_UART0_TRANSMIT 8 m1)) UDRIE = false.
Proof.
  apply (uart_puts_then_drain 8 [72; 105] [] (m_reset 8 8)).
  - reflexivity.
  - concrete.
  - constructor.
  - repeat constructor; lia.
  - simpl. lia.
Defined.

Lemma deliver_then_rxpop_run :
  let r := uart0_rxpop_n 8 (length (@nil Z) + length [65; 66])
             (deliver 8 0 [65; 66] (m_reset 8 8)) in
  fst r = [] ++ map (rx_byte 0) [65; 66] /\
  UART_RxHead (snd r) = UART_RxTail (snd r) /\
  uart0_rxpop 8 (snd r) = (0, snd r).
Proof.
  apply (deliver_then_rxpop 8 0 [65; 66] [] (m_reset 8 8)).
  - reflexivity.
  - concrete.
  - simpl. lia.
Defined.

Lemma uart_getc_queue_run :
  fst (uart_getc 8 256 m_rx3) = u16 (Z.shiftl (UART_LastRxError m_rx3) 8 + 72) /\
  rx0_queue 8 (snd (uart_getc 8 256 m_rx3)) [101; 108].
Proof.
  apply (uart_getc_queue 8 256 72 101 [108] m_rx3 eq_refl).
  concrete.
Defined.

Lemma uart1_puts_then_drain_run :
  exists m',
    uart1_puts 8 [72; 105] (m_reset 8 8) = Some m' /\
    let m1 := fire (SIGNAL_UART1_TRANSMIT 8) (length (@nil Z) + length [72; 105]) m' in
    UDR_tx (usart1 m1) = UDR_tx (usart1 (m_reset 8 8)) ++ [] ++ [72; 105] /\
    UART1_TxHead m1 = UART1_TxTail m1 /\
    UDR_tx (usart1 (SIGNAL_UART1_TRANSMIT 8 m1)) = UDR_tx (usart1 m1) /\
    Z.testbit (UART1_CONTROL (SIGNAL_UART1_TRANSMIT 8 m1)) UDRIE = false.
Proof.
  apply (uart1_puts_then_drain 8 [72; 105] [] (m_reset 8 8)).
  - reflexivity.
  - concrete.
  - repeat constructor; lia.
  - simpl. lia.
Defined.

Lemma uart1_puts_waits_run :
  uart1_puts 8 [65; 66; 67; 68; 69; 70; 71; 72] (m_reset 8 8) = None.
Proof.
  apply (uart1_puts_waits 8 [65; 66; 67; 68; 69; 70; 71; 72] [] (m_reset 8 8)).
  - reflexivity.
  - concrete.
  - repeat constructor; lia.
  - simpl. lia.
Defined.

Lemma uart1_receive_then_getc_run :
  let m1 := SIGNAL_UART1_RECEIVE 8 512 m_frame_error in
  load (UART_RxBuf m1) ((UART1_RxHead m_frame_error + 1) mod 8) =
    rx_byte (UART1_STATUS m_frame_error) (UART1_DATA m_frame_error) /\
  fst (uart1_getc 8 256 m1) =
    u16 (Z.shiftl (Z.land (UART1_STATUS m_frame_error) (Z.lor (_BV FE) (_BV DOR))) 8 +
         load (UART1_RxBuf m_frame_error) ((UART1_RxTail m_frame_error + 1) mod 8)).
Proof.
  apply (uart1_receive_then_getc 8 256 512 m_frame_error).
  - reflexivity.
  - concrete.
  - reflexivity.
  - vm_compute. congruence.
Defined.

Lemma control_bits_kept_run :
  Z.testbit (UART0_CONTROL (uart_putc 8 65 m_null_first)) RXCIE =
    Z.testbit (UART0_CONTROL m_null_first) RXCIE /\
  Z.testbit (UART0_CONTROL (ISR_UART0_TRANSMIT 8 m_null_first)) RXCIE =
    Z.testbit (UART0_CONTROL m_null_first) RXCIE.
Proof.
  assert (Hi : 0 <= RXCIE < 8) by (unfold RXCIE; lia).
  assert (Hne : RXCIE <> UDRIE) by (unfold RXCIE, UDRIE; lia).
  destruct (control_bits_kept 8 65 RXCIE m_null_first Hi Hne) as (A & B & _).
  exact (conj A B).
Defined.


Lemma enable_is_local_run :
  let uart := fst (UARTenable 103 7 2 3 (repeat 0 8) m_full) in
  let m' := snd (UARTenable 103 7 2 3 (repeat 0 8) m_full) in
  vars1 m' = vars1 m_full /\ UART_TxBuf m' = hello /\
  index uart = 0 /\ FDbits uart = 7 /\ Stopbits uart = 2 /\ Parity uart = 3.
Proof.
  assert (Hne : repeat 0 8 <> @nil Z) by discriminate.
  destruct (enable_is_local 103 7 2 3 (repeat 0 8) m_full Hne)
    as ((A & _ & B & _ & _ & C & _ & _ & _ & D & E & F) & _).
  exact (conj A (conj B (conj C (conj D (conj E F))))).
Defined.

Lemma uart1_read_cursor_run :
  exists r uart' m',
    uart1_read 8 uart_fresh m_rx3 = Some (r, uart', m') /\
    0 <= index uart' < 8 /\
    length (msg uart') = length (msg uart_fresh) /\
    ((UART1_RxTail m_rx3 <> UART1_RxHead m_rx3 /\ index uart_fresh < UART_RX_BUFFER_MASK 8 /\
      r = ret_empty /\
      index uart' = index uart_fresh + 1 /\
      load (msg uart') (index uart_fresh) =
        load (UART1_RxBuf m_rx3) ((UART1_RxTail m_rx3 + 1) mod 8) /\
      load (msg uart') (index uart_fresh + 1) = 0 /\
      UART1_RxTail m' = (UART1_RxTail m_rx3 + 1) mod 8) \/
     ((UART1_RxTail m_rx3 = UART1_RxHead m_rx3 \/ UART_RX_BUFFER_MASK 8 <= index uart_fresh) /\
      r = ret_msg (msg uart_fresh) /\ index uart' = 0 /\ msg uart' = msg uart_fresh /\
      m' = m_rx3)).
Proof.
  apply (uart1_read_cursor 8 uart_fresh m_rx3).
  - reflexivity.
  - vm_compute. congruence.
  - reflexivity.
  - concrete.
Defined.

Lemma receive_and_read_line_run :
  exists uart' m',
    receive_and_read_all 8 [72; 105] (uart_fresh, m_reset 8 8) = Some (uart', m') /\
    index uart' = Z.of_nat (length [72; 105]) /\
    length (msg uart') = length (msg uart_fresh) /\
    take (S (length [72; 105])) (msg uart') = [72; 105] ++ [0] /\
    UART_RxHead m' = UART_RxTail m'.
Proof.
  apply (receive_and_read_line 8 [72; 105] uart_fresh (m_reset 8 8)).
  - reflexivity.
  - lia.
  - concrete.
  - reflexivity.
  - reflexivity.
  - discriminate.
  - repeat constructor; lia.
  - simpl. lia.
Defined.

Lemma flush_then_receive_run :
  (uart_available 8 (uart_flush m_rx3) = Some 0 /\
   uart0_rxpop 8 (uart_flush m_rx3) = (0, uart_flush m_rx3) /\
   fst (uart0_rxpop_n 8 (length [65]) (deliver 8 0 [65] (uart_flush m_rx3))) =
     map (rx_byte 0) [65]) /\
  (uart1_available 8 (uart1_flush m_rx3) = Some 0 /\
   uart1_getc 8 256 (uart1_flush m_rx3) = (256, uart1_flush m_rx3)).
Proof.
  apply (flush_then_receive 8 256 0 [65] m_rx3).
  - reflexivity.
  - lia.
  - concrete.
  - simpl. lia.
Defined.

Lemma MM74C923_gets_fifth_key_run :
  exists k4,
    MM74C923_gets_all [49; 50; 51; 52] keypad_reset = Some k4 /\
    mm74c923_i k4 = 4 /\
    MM74C923_string k4 = [49; 50; 51; 52; 0] /\
    MM74C923_gets 53 k4 = None.
Proof.
  apply (MM74C923_gets_fifth_key 49 50 51 52 53 keypad_reset);
    first [reflexivity | (split; lia)].
Defined.

Lemma uart_puts_too_long_run :
  let m1 := uart_puts 8 [65; 66; 67; 68; 69; 70; 71; 72] (m_reset 8 8) in
  let m2 := ISR_UART0_TRANSMIT 8 m1 in
  load (UART_TxBuf m1) (UART_TxTail m1) = 0 /\
  UDR_tx (usart0 m2) = UDR_tx (usart0 (m_reset 8 8)) /\
  Z.testbit (UART0_CONTROL m2) UDRIE = false /\
  (4 <= 8 -> UART_TxHead m2 <> UART_TxTail m2).
Proof.
  apply (uart_puts_too_long 8 [65; 66; 67; 68; 69; 70; 71; 72] (m_reset 8 8)).
  - reflexivity.
  - lia.
  - concrete.
  - repeat constructor; lia.
  - simpl. lia.
Defined.

